(** * Priority-ordered data-source fallback (data_source_fallback.py)

    A shallow embedding of the [DataSourceFallback] class: the two code
    conversions, the Baostock session flag, and the fallback chains of
    [get_daily_data] and [get_financial_data].  The external vendors
    (TuShare, Baostock, AkShare) and the Python import machinery are a
    [world] of oracles that answer from the history of calls made so far,
    so that a vendor may answer differently on each call and may raise. *)

From Stdlib Require Import ZArith Ascii String List Lia Bool DecimalString.
From stdpp Require Import base option list strings gmap.

Open Scope string_scope.

(** ** Python string operations used by the module

    A string is a sequence of one-byte characters; the stock codes and
    dates the module slices and tests are ASCII. *)

Module PyStr.

Definition dot : ascii := "."%char.
Definition hyphen : ascii := "-"%char.

(** [c in s] for a one-character needle. *)
Fixpoint contains (c : ascii) (s : string) : bool :=
  match s with
  | EmptyString => false
  | String a s' => if Ascii.eqb a c then true else contains c s'
  end.

(** [s.startswith(p)]. *)
Definition startswith (s p : string) : bool := String.prefix p s.

(** [s.split(sep)] for a one-character separator: never empty. *)
Fixpoint split (sep : ascii) (s : string) : list string :=
  match s with
  | EmptyString => [EmptyString]
  | String a s' =>
      if Ascii.eqb a sep then EmptyString :: split sep s'
      else match split sep s' with
           | [] => [String a EmptyString]
           | h :: t => String a h :: t
           end
  end.

Definition lower_char (a : ascii) : ascii :=
  let n := nat_of_ascii a in
  if (65 <=? n)%nat && (n <=? 90)%nat then ascii_of_nat (n + 32) else a.

(** [s.lower()] on the ASCII range. *)
Fixpoint lower (s : string) : string :=
  match s with
  | EmptyString => EmptyString
  | String a s' => String (lower_char a) (lower s')
  end.

(** [s.replace(c, "")] for a one-character [c]. *)
Fixpoint remove (c : ascii) (s : string) : string :=
  match s with
  | EmptyString => EmptyString
  | String a s' => if Ascii.eqb a c then remove c s' else String a (remove c s')
  end.

(** Slices [s[:n]], [s[n:]] and [s[n:m]]; they truncate, never raise. *)
Fixpoint take (n : nat) (s : string) : string :=
  match n, s with
  | S n', String a s' => String a (take n' s')
  | _, _ => EmptyString
  end.

Fixpoint drop (n : nat) (s : string) : string :=
  match n, s with
  | S n', String _ s' => drop n' s'
  | _, _ => s
  end.

Definition slice (n m : nat) (s : string) : string := take (m - n) (drop n s).

Definition is_digit (a : ascii) : bool :=
  let n := nat_of_ascii a in (48 <=? n)%nat && (n <=? 57)%nat.

Fixpoint all_digits (s : string) : bool :=
  match s with
  | EmptyString => true
  | String a s' => is_digit a && all_digits s'
  end.

End PyStr.

(** ** Code conversions *)

(** [_convert_to_tushare_code]: exchange-suffix form, [600519.SH]. *)
Definition _convert_to_tushare_code (stock_code : string) : string :=
  if PyStr.contains PyStr.dot stock_code then stock_code
  else if PyStr.startswith stock_code "6" then stock_code +:+ ".SH"
  else if PyStr.startswith stock_code "0" || PyStr.startswith stock_code "3"
       then stock_code +:+ ".SZ"
  else if PyStr.startswith stock_code "8" || PyStr.startswith stock_code "4"
       then stock_code +:+ ".BJ"
  else stock_code +:+ ".SH".

(** Python exceptions, by their [str()]: everything the module catches is
    caught by [except Exception]. *)
Definition exn : Type := string.

Inductive outcome (A : Type) : Type :=
| Ok (a : A)
| Raise (e : exn).
Arguments Ok {A} a.
Arguments Raise {A} e.

(** [l[i]] on a Python list. *)
Definition py_index (l : list string) (i : nat) : outcome string :=
  match l !! i with
  | Some x => Ok x
  | None => Raise "list index out of range"
  end.

(** [_convert_to_baostock_code]: exchange-prefix form, [sh.600519]. *)
Definition _convert_to_baostock_code (stock_code : string) : outcome string :=
  if PyStr.contains PyStr.dot stock_code then
    let parts := PyStr.split PyStr.dot stock_code in
    match py_index parts 1, py_index parts 0 with
    | Ok p1, Ok p0 => Ok (PyStr.lower p1 +:+ "." +:+ p0)
    | Raise e, _ => Raise e
    | _, Raise e => Raise e
    end
  else if PyStr.startswith stock_code "6" then Ok ("sh." +:+ stock_code)
  else if PyStr.startswith stock_code "0" || PyStr.startswith stock_code "3"
       then Ok ("sz." +:+ stock_code)
  else if PyStr.startswith stock_code "8" || PyStr.startswith stock_code "4"
       then Ok ("bj." +:+ stock_code)
  else Ok ("sh." +:+ stock_code).

(** The Sina code built inline in [get_financial_data] (local [sina_code]). *)
Definition sina_code (stock_code : string) : string :=
  if PyStr.startswith stock_code "6" then "sh" +:+ stock_code
  else "sz" +:+ stock_code.

(** ** Data frames *)

(** A cell is a value or a missing one (pandas pads short rows). *)
Definition cell : Type := option string.

Record DataFrame : Type := mkDataFrame {
  columns : list string;
  rows : list (list cell)
}.

(** [df.empty]: some axis has length 0. *)
Definition df_empty (df : DataFrame) : bool :=
  match columns df, rows df with
  | [], _ | _, [] => true
  | _, _ => false
  end.

(** [len(df)]. *)
Definition df_len (df : DataFrame) : nat := length (rows df).

(** [df.rename(columns=mapping)]: unmapped labels stay. *)
Definition df_rename (mapping : gmap string string) (df : DataFrame) : DataFrame :=
  mkDataFrame (map (fun c => default c (mapping !! c)) (columns df)) (rows df).

Definition pad_row (w : nat) (r : list string) : list cell :=
  map Some r ++ replicate (w - length r) None.

(** [pd.DataFrame(data_list, columns=fields)] on a list of string rows: the
    widest row must have as many cells as there are labels; shorter rows
    are padded.  No rows gives the empty frame with these labels. *)
Definition pd_DataFrame (data_list : list (list string)) (fields : list string)
  : outcome DataFrame :=
  match data_list with
  | [] => Ok (mkDataFrame fields [])
  | _ =>
      let w := max_list (map length data_list) in
      if Nat.eqb w (length fields)
      then Ok (mkDataFrame fields (map (pad_row w) data_list))
      else Raise "columns passed do not match the data"
  end.

(** ** The vendors *)

(** Baostock's login result and query result objects. *)
Record LoginResult : Type := mkLogin {
  lg_error_code : string;
  lg_error_msg : string
}.

Record ResultData : Type := mkResultData {
  error_code : string;
  error_msg : string;
  fields : list string;
  data : list (list string)
}.

(** Vendor calls, in the order they are made. *)
Inductive call : Type :=
| ts_set_token (token : string)
| ts_pro_api
| ts_daily (ts_code start_date end_date fields : string)
| bs_login
| bs_logout
| bs_query_history_k_data_plus
    (code fields start_date end_date frequency adjustflag : string)
| bs_query_profit_data (code : string) (year quarter : Z)
| bs_query_balance_data (code : string) (year quarter : Z)
| bs_query_cash_flow_data (code : string) (year quarter : Z)
| ak_stock_zh_a_hist (symbol period start_date end_date adjust : string)
| ak_stock_financial_report_sina (stock symbol : string).

Inductive level : Type := INFO | WARNING | ERROR.

(** The environment: each answer may depend on the calls made before it
    ([import] statements answer by module name). *)
Record world : Type := mkWorld {
  import_module : list call -> string -> outcome unit;
  w_ts_set_token : list call -> string -> outcome unit;
  w_ts_pro_api : list call -> outcome unit;
  w_ts_daily : list call -> string -> string -> string -> string
               -> outcome (option DataFrame);
  w_bs_login : list call -> outcome LoginResult;
  w_bs_logout : list call -> outcome unit;
  w_bs_query_history :
    list call -> string -> string -> string -> string -> string -> string
    -> outcome ResultData;
  w_bs_query_profit : list call -> string -> Z -> Z -> outcome ResultData;
  w_bs_query_balance : list call -> string -> Z -> Z -> outcome ResultData;
  w_bs_query_cash_flow : list call -> string -> Z -> Z -> outcome ResultData;
  w_ak_hist : list call -> string -> string -> string -> string -> string
              -> outcome (option DataFrame);
  w_ak_sina : list call -> string -> string -> outcome DataFrame
}.

(** The object's fields, the calls made so far and the log. *)
Record state : Type := mkState {
  tushare_token : option string;
  tushare_api : bool;
  baostock_logged_in : bool;
  calls : list call;
  logs : list (level * string)
}.

(** ** State and exception monad *)

Definition M (A : Type) : Type := state -> outcome A * state.

Definition ret {A} (a : A) : M A := fun s => (Ok a, s).

Definition raise {A} (e : exn) : M A := fun s => (Raise e, s).

Definition bind {A B} (m : M A) (k : A -> M B) : M B :=
  fun s =>
    match m s with
    | (Ok a, s') => k a s'
    | (Raise e, s') => (Raise e, s')
    end.

(** [try: body  except Exception as e: handler e]; the state changes made
    before the exception stay. *)
Definition try_except {A} (body : M A) (handler : exn -> M A) : M A :=
  fun s =>
    match body s with
    | (Ok a, s') => (Ok a, s')
    | (Raise e, s') => handler e s'
    end.

Definition lift {A} (o : outcome A) : M A := fun s => (o, s).

Declare Scope py_scope.
Delimit Scope py_scope with py.
Notation "x <~ m ;; k" := (bind m (fun x => k))
  (at level 100, m at next level, right associativity) : py_scope.
Notation "m ;;; k" := (bind m (fun _ => k))
  (at level 100, right associativity) : py_scope.
Open Scope py_scope.

Definition get_state : M state := fun s => (Ok s, s).

Definition set_tushare_api (b : bool) : M unit :=
  fun s => (Ok tt, mkState (tushare_token s) b (baostock_logged_in s) (calls s) (logs s)).

Definition set_baostock_logged_in (b : bool) : M unit :=
  fun s => (Ok tt, mkState (tushare_token s) (tushare_api s) b (calls s) (logs s)).

Definition logger (l : level) (msg : string) : M unit :=
  fun s => (Ok tt, mkState (tushare_token s) (tushare_api s) (baostock_logged_in s)
                           (calls s) (logs s ++ [(l, msg)])).

(** A vendor call: the oracle answers from the calls made before, and the
    call is recorded whether it returns or raises. *)
Definition vendor {A} (c : call) (answer : list call -> outcome A) : M A :=
  fun s => (answer (calls s),
            mkState (tushare_token s) (tushare_api s) (baostock_logged_in s)
                    (calls s ++ [c]) (logs s)).

Definition import (w : world) (name : string) : M unit :=
  fun s => (import_module w (calls s) name, s).

(** [str(n)] for a length or an integer argument. *)
Definition str_of_nat (n : nat) : string :=
  NilEmpty.string_of_uint (Nat.to_uint n).

Definition str_of_Z (z : Z) : string :=
  NilEmpty.string_of_int (Z.to_int z).

(** The loop [while (rs.error_code == "0") & rs.next(): data_list.append
    (rs.get_row_data())] over the rows the result object still holds. *)
Fixpoint read_rows (code : string) (pending : list (list string))
    (data_list : list (list string)) : list (list string) :=
  match pending with
  | [] => data_list
  | r :: pending' =>
      if String.eqb code "0" then read_rows code pending' (data_list ++ [r])
      else data_list
  end.

Definition TS_FIELDS : string :=
  "ts_code,trade_date,open,high,low,close,pre_close,change,pct_chg,vol,amount".

Definition BS_FIELDS : string :=
  "date,code,open,high,low,close,preclose,volume,amount,adjustflag,turn,tradestatus,pctChg,isST".

Definition TS_RENAME : gmap string string :=
  list_to_map
    [("trade_date", "date"); ("ts_code", "code"); ("pre_close", "preclose");
     ("vol", "volume"); ("pct_chg", "pctChg")].

Definition ALL_FAILED : string := "所有数据源均失败".

(** ** The methods of [DataSourceFallback] *)

Section Methods.

Variable w : world.

Definition __init__ (token : option string) : M unit :=
  (fun s => (Ok tt, mkState token false false (calls s) (logs s))) ;;;
  match token with
  | Some t =>
      if negb (String.eqb t "") then
        try_except
          (import w "tushare" ;;;
           vendor (ts_set_token t) (fun h => w_ts_set_token w h t) ;;;
           vendor ts_pro_api (w_ts_pro_api w) ;;;
           set_tushare_api true ;;;
           logger INFO "✅ TuShare 初始化成功")
          (fun e => logger WARNING ("⚠️ TuShare 初始化失败: " +:+ e))
      else ret tt
  | None => ret tt
  end.

Definition _login_baostock : M bool :=
  s <~ get_state ;;
  if baostock_logged_in s then ret true
  else
    try_except
      (import w "baostock" ;;;
       lg <~ vendor bs_login (w_bs_login w) ;;
       if String.eqb (lg_error_code lg) "0" then
         set_baostock_logged_in true ;;;
         logger INFO "✅ Baostock 登录成功" ;;;
         ret true
       else
         logger WARNING ("⚠️ Baostock 登录失败: " +:+ lg_error_msg lg) ;;;
         ret false)
      (fun e => logger WARNING ("⚠️ Baostock 登录异常: " +:+ e) ;;; ret false).

Definition _logout_baostock : M unit :=
  s <~ get_state ;;
  if baostock_logged_in s then
    try_except
      (import w "baostock" ;;;
       vendor bs_logout (w_bs_logout w) ;;;
       set_baostock_logged_in false ;;;
       logger INFO "✅ Baostock 登出成功")
      (fun _ => ret tt)
  else ret tt.

Definition __del__ : M unit := _logout_baostock.

(** *** get_daily_data

    Each provider block gives [Some r] when the method returns [r] from
    inside it and [None] when control falls through to the next block. *)

Definition daily_tushare (stock_code start_date_dash end_date_dash : string)
  : M (option (option DataFrame * string)) :=
  s <~ get_state ;;
  if tushare_api s then
    try_except
      (logger INFO "🔄 尝试使用 TuShare (P0主力)..." ;;;
       let ts_code := _convert_to_tushare_code stock_code in
       df <~ vendor (ts_daily ts_code start_date_dash end_date_dash TS_FIELDS)
               (fun h => w_ts_daily w h ts_code start_date_dash end_date_dash
                           TS_FIELDS) ;;
       match df with
       | Some df =>
           if negb (df_empty df) then
             let df := df_rename TS_RENAME df in
             logger INFO ("✅ TuShare 成功获取 " +:+ str_of_nat (df_len df)
                          +:+ " 条数据") ;;;
             ret (Some (Some df, "TuShare"))
           else ret None
       | None => ret None
       end)
      (fun e => logger WARNING ("⚠️ TuShare 失败: " +:+ e) ;;; ret None)
  else ret None.

Definition adjustflag_of (adjust : string) : string :=
  if String.eqb adjust "qfq" then "2"
  else if String.eqb adjust "hfq" then "1" else "3".

Definition daily_baostock
    (stock_code start_date_hyphen end_date_hyphen adjust : string)
  : M (option (option DataFrame * string)) :=
  logged <~ _login_baostock ;;
  if logged : bool then
    try_except
      (logger INFO "🔄 尝试使用 Baostock (P0备用)..." ;;;
       import w "baostock" ;;;
       bs_code <~ lift (_convert_to_baostock_code stock_code) ;;
       let adjustflag := adjustflag_of adjust in
       rs <~ vendor
               (bs_query_history_k_data_plus bs_code BS_FIELDS
                  start_date_hyphen end_date_hyphen "d" adjustflag)
               (fun h => w_bs_query_history w h bs_code BS_FIELDS
                           start_date_hyphen end_date_hyphen "d" adjustflag) ;;
       if String.eqb (error_code rs) "0" then
         let data_list := read_rows (error_code rs) (data rs) [] in
         df <~ lift (pd_DataFrame data_list (fields rs)) ;;
         if negb (df_empty df) then
           logger INFO ("✅ Baostock 成功获取 " +:+ str_of_nat (df_len df)
                        +:+ " 条数据") ;;;
           ret (Some (Some df, "Baostock"))
         else ret None
       else ret None)
      (fun e => logger WARNING ("⚠️ Baostock 失败: " +:+ e) ;;; ret None)
  else ret None.

Definition daily_akshare
    (stock_code start_date_dash end_date_dash adjust : string)
  : M (option (option DataFrame * string)) :=
  try_except
    (logger INFO "🔄 尝试使用 AkShare (P2补充，不推荐)..." ;;;
     import w "akshare" ;;;
     df <~ vendor
             (ak_stock_zh_a_hist stock_code "daily" start_date_dash
                end_date_dash adjust)
             (fun h => w_ak_hist w h stock_code "daily" start_date_dash
                         end_date_dash adjust) ;;
     match df with
     | Some df =>
         if negb (df_empty df) then
           logger INFO ("✅ AkShare 成功获取 " +:+ str_of_nat (df_len df)
                        +:+ " 条数据") ;;;
           ret (Some (Some df, "AkShare"))
         else ret None
     | None => ret None
     end)
    (fun e => logger WARNING ("⚠️ AkShare 失败: " +:+ e) ;;; ret None).

(** [f"{d[:4]}-{d[4:6]}-{d[6:]}"]. *)
Definition hyphenate (d : string) : string :=
  PyStr.take 4 d +:+ "-" +:+ PyStr.slice 4 6 d +:+ "-" +:+ PyStr.drop 6 d.

Definition get_daily_data (stock_code start_date end_date adjust : string)
  : M (option DataFrame * string) :=
  let start_date_dash := PyStr.remove PyStr.hyphen start_date in
  let end_date_dash := PyStr.remove PyStr.hyphen end_date in
  let start_date_hyphen := hyphenate start_date_dash in
  let end_date_hyphen := hyphenate end_date_dash in
  logger INFO ("📊 获取 " +:+ stock_code +:+ " 日线数据: " +:+ start_date_hyphen
               +:+ " ~ " +:+ end_date_hyphen) ;;;
  r <~ daily_tushare stock_code start_date_dash end_date_dash ;;
  match r with
  | Some out => ret out
  | None =>
      r <~ daily_baostock stock_code start_date_hyphen end_date_hyphen adjust ;;
      match r with
      | Some out => ret out
      | None =>
          r <~ daily_akshare stock_code start_date_dash end_date_dash adjust ;;
          match r with
          | Some out => ret out
          | None =>
              logger ERROR "❌ 所有数据源均失败" ;;;
              ret (None, ALL_FAILED)
          end
      end
  end.

(** *** get_financial_data *)

(** One statement of the Baostock block: stored under [key] only when its
    query reports error code 0. *)
Definition store_statement (key : string) (rs : ResultData)
    (result : gmap string DataFrame) : M (gmap string DataFrame) :=
  if String.eqb (error_code rs) "0" then
    let data_list := read_rows (error_code rs) (data rs) [] in
    df <~ lift (pd_DataFrame data_list (fields rs)) ;;
    ret (<[key := df]> result)
  else ret result.

Definition financial_baostock (stock_code : string) (year quarter : Z)
  : M (option (option (gmap string DataFrame) * string)) :=
  logged <~ _login_baostock ;;
  if logged : bool then
    try_except
      (logger INFO "🔄 尝试使用 Baostock (P0主力)..." ;;;
       import w "baostock" ;;;
       bs_code <~ lift (_convert_to_baostock_code stock_code) ;;
       rs_profit <~ vendor (bs_query_profit_data bs_code year quarter)
                      (fun h => w_bs_query_profit w h bs_code year quarter) ;;
       rs_balance <~ vendor (bs_query_balance_data bs_code year quarter)
                       (fun h => w_bs_query_balance w h bs_code year quarter) ;;
       rs_cash <~ vendor (bs_query_cash_flow_data bs_code year quarter)
                    (fun h => w_bs_query_cash_flow w h bs_code year quarter) ;;
       let result : gmap string DataFrame := ∅ in
       result <~ store_statement "profit" rs_profit result ;;
       result <~ store_statement "balance" rs_balance result ;;
       result <~ store_statement "cashflow" rs_cash result ;;
       if negb (bool_decide (result = ∅)) then
         logger INFO "✅ Baostock 成功获取财务数据" ;;;
         ret (Some (Some result, "Baostock"))
       else ret None)
      (fun e => logger WARNING ("⚠️ Baostock 失败: " +:+ e) ;;; ret None)
  else ret None.

Definition financial_akshare (stock_code : string)
  : M (option (option (gmap string DataFrame) * string)) :=
  try_except
    (logger INFO "🔄 尝试使用 AkShare 新浪接口 (P2备用)..." ;;;
     import w "akshare" ;;;
     let sina := sina_code stock_code in
     balance <~ vendor (ak_stock_financial_report_sina sina "资产负债表")
                  (fun h => w_ak_sina w h sina "资产负债表") ;;
     profit <~ vendor (ak_stock_financial_report_sina sina "利润表")
                 (fun h => w_ak_sina w h sina "利润表") ;;
     cashflow <~ vendor (ak_stock_financial_report_sina sina "现金流量表")
                   (fun h => w_ak_sina w h sina "现金流量表") ;;
     let result : gmap string DataFrame :=
       <["cashflow" := cashflow]> (<["profit" := profit]>
         (<["balance" := balance]> ∅)) in
     logger INFO "✅ AkShare 成功获取财务数据" ;;;
     ret (Some (Some result, "AkShare")))
    (fun e => logger WARNING ("⚠️ AkShare 失败: " +:+ e) ;;; ret None).

Definition get_financial_data (stock_code : string) (year quarter : Z)
  : M (option (gmap string DataFrame) * string) :=
  logger INFO ("📊 获取 " +:+ stock_code +:+ " 财务数据: " +:+ str_of_Z year
               +:+ "Q" +:+ str_of_Z quarter) ;;;
  r <~ financial_baostock stock_code year quarter ;;
  match r with
  | Some out => ret out
  | None =>
      r <~ financial_akshare stock_code ;;
      match r with
      | Some out => ret out
      | None =>
          logger ERROR "❌ 所有数据源均失败" ;;;
          ret (None, ALL_FAILED)
      end
  end.

End Methods.

(** ** Markets and the identifier of the specification *)

Inductive market : Type := Shanghai | Shenzhen | Beijing.

Definition leading (s : string) : option ascii :=
  match s with
  | EmptyString => None
  | String a _ => Some a
  end.

(** The inference rule as the specification words it: 6 is Shanghai, 0 and
    3 are Shenzhen, 8 and 4 are Beijing, anything else is Shanghai. *)
Definition infer_market (s : string) : market :=
  match leading s with
  | Some "6"%char => Shanghai
  | Some "0"%char | Some "3"%char => Shenzhen
  | Some "8"%char | Some "4"%char => Beijing
  | _ => Shanghai
  end.

Definition tushare_suffix (m : market) : string :=
  match m with Shanghai => "SH" | Shenzhen => "SZ" | Beijing => "BJ" end.

Definition baostock_prefix (m : market) : string :=
  match m with Shanghai => "sh" | Shenzhen => "sz" | Beijing => "bj" end.

Definition sina_prefix (m : market) : string := baostock_prefix m.

Definition is_bare_code (p : string) : bool :=
  negb (String.eqb p "") && PyStr.all_digits p.

(** The exchange a tag names, in either case: SH, SZ, BJ. *)
Definition market_of_tag (tag : string) : option market :=
  let t := PyStr.lower tag in
  if String.eqb t "sh" then Some Shanghai
  else if String.eqb t "sz" then Some Shenzhen
  else if String.eqb t "bj" then Some Beijing
  else None.

(** The conversions the module has, as functions from a code to a code. *)
Definition module_conversions : list (string -> outcome string) :=
  [fun stock_code => Ok (_convert_to_tushare_code stock_code);
   _convert_to_baostock_code].

(** The round trip inside the module: whatever conversion wrote the provider
    form of a bare code, some conversion of the module leads back to the
    code. *)
Definition round_trips_within_module : Prop :=
  forall fwd, In fwd module_conversions ->
  exists back,
    In back module_conversions /\
    (forall s p, is_bare_code s = true -> fwd s = Ok p -> back p = Ok s).

(** ** Observations on a run *)

Definition is_tushare_call (c : call) : bool :=
  match c with
  | ts_set_token _ | ts_pro_api | ts_daily _ _ _ _ => true
  | _ => false
  end.

Definition is_login (c : call) : bool :=
  match c with bs_login => true | _ => false end.

(** The requests sent to TuShare, and the number of Baostock logins. *)
Definition tushare_requests (cs : list call) : list call :=
  filter (fun c => is_tushare_call c = true) cs.

Definition login_count (cs : list call) : nat :=
  length (filter (fun c => is_login c = true) cs).

(** The failure reasons the run recorded: its warnings. *)
Definition warnings (l : list (level * string)) : list string :=
  omap (fun e => match e.1 with WARNING => Some e.2 | _ => None end) l.

(** [n] consecutive session acquisitions. *)
Fixpoint acquire (w : world) (n : nat) : M (list bool) :=
  match n with
  | O => ret []
  | S n' =>
      b <~ _login_baostock w ;;
      bs <~ acquire w n' ;;
      ret (b :: bs)
  end.

(** A new object before [__init__] runs. *)
Definition blank : state := mkState None false false [] [].

(** ** Sample environments *)

Module Samples.

Definition frame3 : DataFrame :=
  mkDataFrame ["ts_code"; "trade_date"; "close"]
    [[Some "600519.SH"; Some "20240102"; Some "1685.01"];
     [Some "600519.SH"; Some "20240103"; Some "1694.00"];
     [Some "600519.SH"; Some "20240104"; Some "1669.00"]].

Definition rows3 : list (list string) :=
  [["2024-01-02"; "sh.600519"; "1685.01"];
   ["2024-01-03"; "sh.600519"; "1694.00"];
   ["2024-01-04"; "sh.600519"; "1669.00"]].

Definition ak3 : DataFrame :=
  mkDataFrame ["日期"; "股票代码"; "收盘"]
    [[Some "2024-01-02"; Some "600519"; Some "1685.01"];
     [Some "2024-01-03"; Some "600519"; Some "1694.00"];
     [Some "2024-01-04"; Some "600519"; Some "1669.00"]].

Definition no_rows : ResultData :=
  mkResultData "0" "success" ["date"; "code"; "close"] [].

Definition rs3 : ResultData :=
  mkResultData "0" "success" ["date"; "code"; "close"] rows3.

Definition rs_error : ResultData :=
  mkResultData "10004011" "网络接收错误。" [] [].

Definition statement (name : string) : ResultData :=
  mkResultData "0" "success" ["code"; "statDate"; name]
    [["sh.600519"; "2024-09-30"; "0.52"]].

(** Every vendor answers; the daily answers are parameters. *)
Definition serving (ts : outcome (option DataFrame)) (bs : outcome ResultData)
    (ak : outcome (option DataFrame)) : world :=
  mkWorld (fun _ _ => Ok tt) (fun _ _ => Ok tt) (fun _ => Ok tt)
    (fun _ _ _ _ _ => ts)
    (fun _ => Ok (mkLogin "0" "success")) (fun _ => Ok tt)
    (fun _ _ _ _ _ _ _ => bs)
    (fun _ _ _ _ => Ok (statement "roeAvg"))
    (fun _ _ _ _ => Ok (statement "currentRatio"))
    (fun _ _ _ _ => Ok (statement "CAToAsset"))
    (fun _ _ _ _ _ _ => ak)
    (fun _ _ _ => Ok (mkDataFrame ["报告日"] [[Some "20240930"]])).

(** Every vendor raises; AkShare with the given reason. *)
Definition down (ak_reason : string) : world :=
  mkWorld (fun _ _ => Ok tt)
    (fun _ _ => Raise "token rejected") (fun _ => Raise "token rejected")
    (fun _ _ _ _ _ => Raise "tushare: read timed out")
    (fun _ => Raise "baostock: connection refused") (fun _ => Ok tt)
    (fun _ _ _ _ _ _ _ => Raise "baostock: connection refused")
    (fun _ _ _ _ => Raise "baostock: connection refused")
    (fun _ _ _ _ => Raise "baostock: connection refused")
    (fun _ _ _ _ => Raise "baostock: connection refused")
    (fun _ _ _ _ _ _ => Raise ak_reason)
    (fun _ _ _ => Raise ak_reason).

(** Baostock serves the profit statement only. *)
Definition profit_only : world :=
  mkWorld (fun _ _ => Ok tt) (fun _ _ => Ok tt) (fun _ => Ok tt)
    (fun _ _ _ _ _ => Ok None)
    (fun _ => Ok (mkLogin "0" "success")) (fun _ => Ok tt)
    (fun _ _ _ _ _ _ _ => Ok rs_error)
    (fun _ _ _ _ => Ok (statement "roeAvg"))
    (fun _ _ _ _ => Ok rs_error)
    (fun _ _ _ _ => Ok rs_error)
    (fun _ _ _ _ _ _ => Ok None)
    (fun _ _ _ => Raise "sina: no data").

(** Baostock refuses the login; AkShare serves. *)
Definition no_session : world :=
  mkWorld (fun _ _ => Ok tt) (fun _ _ => Ok tt) (fun _ => Ok tt)
    (fun _ _ _ _ _ => Ok None)
    (fun _ => Ok (mkLogin "10001001" "用户未登录")) (fun _ => Ok tt)
    (fun _ _ _ _ _ _ _ => Ok rs_error)
    (fun _ _ _ _ => Ok rs_error)
    (fun _ _ _ _ => Ok rs_error)
    (fun _ _ _ _ => Ok rs_error)
    (fun _ _ _ _ _ _ => Ok (Some ak3))
    (fun _ _ _ => Ok (mkDataFrame ["报告日"] [[Some "20240930"]])).

Definition empty_frame : DataFrame :=
  mkDataFrame ["ts_code"; "trade_date"; "close"] [].

Definition bs_frame3 : DataFrame :=
  mkDataFrame ["date"; "code"; "close"] (map (map Some) rows3).

(** TuShare has no rows for the request, Baostock has three. *)
Definition tushare_empty : world :=
  serving (Ok (Some empty_frame)) (Ok rs3) (Ok (Some ak3)).

(** TuShare has the three rows. *)
Definition tushare_serves : world :=
  serving (Ok (Some frame3)) (Ok rs3) (Ok (Some ak3)).

Definition profit_frame : DataFrame :=
  mkDataFrame ["code"; "statDate"; "roeAvg"]
    [[Some "sh.600519"; Some "2024-09-30"; Some "0.52"]].

(** The object after [__init__] with a token, in a serving world. *)
Definition configured : state :=
  (__init__ (serving (Ok None) (Ok no_rows) (Ok None)) (Some "token") blank).2.

End Samples.

(** ** What the two public methods may hand back *)

Definition daily_sources : list string := ["TuShare"; "Baostock"; "AkShare"].

Definition financial_sources : list string := ["Baostock"; "AkShare"].

(** A (data, source name) pair from one of [sources], or (None, message). *)
Definition well_formed_result {D} (sources : list string) (r : option D * string)
  : Prop :=
  (exists d, r.1 = Some d /\ In r.2 sources) \/ r = (None, ALL_FAILED).

(** What a provider block may yield: fall through, or data with its name. *)
Definition block_result {D} (name : string) (r : option (option D * string))
  : Prop :=
  r = None \/ exists d, r = Some (Some d, name).

(** The Baostock session is usable at history [h]: already open, or the
    import and the login made at [h] succeed. *)
Definition session_opens (w : world) (s : state) (h : list call) : Prop :=
  baostock_logged_in s = true \/
  (import_module w h "baostock" = Ok tt /\
   exists msg, w_bs_login w h = Ok (mkLogin "0" msg)).

(** The login call that acquiring the session from [s] makes, if any. *)
Definition login_calls (s : state) : list call :=
  if baostock_logged_in s then [] else [bs_login].

(** ** The aggregated failure of the specification *)

(** The log entries a run added. *)
Definition new_logs (s s' : state) : list (level * string) :=
  drop (length (logs s)) (logs s').

(** The returned value carries the per-provider failure reasons: some
    reading of the value gives, for every run in which no provider delivered,
    the reasons that run recorded. *)
Definition failure_carries_reasons : Prop :=
  exists decode : option DataFrame * string -> list string,
    forall w stock_code start_date end_date adjust s r s',
      get_daily_data w stock_code start_date end_date adjust s = (Ok r, s') ->
      r.1 = None ->
      decode r = warnings (new_logs s s').

(** Two states with the same requests sent to TuShare. *)
Definition same_tushare_requests (s s' : state) : Prop :=
  tushare_requests (calls s') = tushare_requests (calls s).

(** The part of [get_daily_data] below the TuShare block. *)
Definition daily_after_tushare (w : world)
    (stock_code start_date_dash end_date_dash start_date_hyphen
       end_date_hyphen adjust : string)
  : M (option DataFrame * string) :=
  r <~ daily_baostock w stock_code start_date_hyphen end_date_hyphen adjust ;;
  match r with
  | Some out => ret out
  | None =>
      r <~ daily_akshare w stock_code start_date_dash end_date_dash adjust ;;
      match r with
      | Some out => ret out
      | None => logger ERROR "❌ 所有数据源均失败" ;;; ret (None, ALL_FAILED)
      end
  end.

(** ** The date normalisation of the history tool (history_analysis.py) *)

(** [HistoryAnalyzer.normalize_date]: None for the empty string; otherwise
    the hyphens are removed and a string of eight characters is cut as
    YYYY-MM-DD, any other length is returned without its hyphens. *)
Definition normalize_date (date_str : string) : option string :=
  if String.eqb date_str "" then None
  else
    let date_str := PyStr.remove PyStr.hyphen date_str in
    if Nat.eqb (String.length date_str) 8 then
      Some (PyStr.take 4 date_str +:+ "-" +:+ PyStr.slice 4 6 date_str +:+ "-"
            +:+ PyStr.slice 6 8 date_str)
    else Some date_str.

(** ** More observations on a run *)

Definition is_bs_query (c : call) : bool :=
  match c with
  | bs_query_history_k_data_plus _ _ _ _ _ _
  | bs_query_profit_data _ _ _
  | bs_query_balance_data _ _ _
  | bs_query_cash_flow_data _ _ _ => true
  | _ => false
  end.

Definition is_akshare_call (c : call) : bool :=
  match c with
  | ak_stock_zh_a_hist _ _ _ _ _ | ak_stock_financial_report_sina _ _ => true
  | _ => false
  end.

(** The queries sent to Baostock, and the calls made to AkShare. *)
Definition bs_queries (cs : list call) : list call :=
  filter (fun c => is_bs_query c = true) cs.

Definition akshare_calls (cs : list call) : list call :=
  filter (fun c => is_akshare_call c = true) cs.

(** [n] consecutive releases. *)
Fixpoint release (w : world) (n : nat) : M unit :=
  match n with
  | O => ret tt
  | S n' => _logout_baostock w ;;; release w n'
  end.

(** Baostock refuses every login with the given code and message. *)
Definition login_refused (w : world) (code msg : string) : Prop :=
  code <> "0" /\
  forall h, import_module w h "baostock" = Ok tt /\
            w_bs_login w h = Ok (mkLogin code msg).

(** The three statement keys of the financial result. *)
Definition statement_keys : gset string := {["profit"; "balance"; "cashflow"]}.

(** A session that is active stays active, and no login call is added. *)
Definition session_stays (s s' : state) : Prop :=
  baostock_logged_in s = true ->
  baostock_logged_in s' = true /\
  login_count (calls s') = login_count (calls s).

(** A run that ends without a session has sent no query to Baostock. *)
Definition no_query_without_session (s s' : state) : Prop :=
  baostock_logged_in s' = false ->
  baostock_logged_in s = false /\
  bs_queries (calls s') = bs_queries (calls s).

(** [__init__] can build the API object for [token] at history [h]. *)
Definition tushare_initialises (w : world) (token : option string)
    (h : list call) : Prop :=
  exists t,
    token = Some t /\ t <> "" /\
    import_module w h "tushare" = Ok tt /\
    w_ts_set_token w h t = Ok tt /\
    w_ts_pro_api w (h ++ [ts_set_token t])%list = Ok tt.

Module MoreSamples.

(** Baostock answers the three statements with no rows. *)
Definition no_statement_rows : world :=
  mkWorld (fun _ _ => Ok tt) (fun _ _ => Ok tt) (fun _ => Ok tt)
    (fun _ _ _ _ _ => Ok None)
    (fun _ => Ok (mkLogin "0" "success")) (fun _ => Ok tt)
    (fun _ _ _ _ _ _ _ => Ok Samples.no_rows)
    (fun _ _ _ _ => Ok Samples.no_rows)
    (fun _ _ _ _ => Ok Samples.no_rows)
    (fun _ _ _ _ => Ok Samples.no_rows)
    (fun _ _ _ _ _ _ => Ok None)
    (fun _ _ _ => Raise "sina: no data").

(** The logout raises. *)
Definition logout_fails : world :=
  mkWorld (fun _ _ => Ok tt) (fun _ _ => Ok tt) (fun _ => Ok tt)
    (fun _ _ _ _ _ => Ok None)
    (fun _ => Ok (mkLogin "0" "success")) (fun _ => Raise "socket closed")
    (fun _ _ _ _ _ _ _ => Ok Samples.no_rows)
    (fun _ _ _ _ => Ok Samples.no_rows)
    (fun _ _ _ _ => Ok Samples.no_rows)
    (fun _ _ _ _ => Ok Samples.no_rows)
    (fun _ _ _ _ _ _ => Ok None)
    (fun _ _ _ => Raise "sina: no data").

(** An object with an active session. *)
Definition in_session : state := mkState None false true [bs_login] [].

Definition empty_statement : DataFrame :=
  mkDataFrame ["date"; "code"; "close"] [].

Definition sina_report : DataFrame :=
  mkDataFrame ["报告日"] [[Some "20240930"]].

(** Baostock opens the session and refuses the three statements; Sina
    serves. *)
Definition statements_refused : world :=
  mkWorld (fun _ _ => Ok tt) (fun _ _ => Ok tt) (fun _ => Ok tt)
    (fun _ _ _ _ _ => Ok None)
    (fun _ => Ok (mkLogin "0" "success")) (fun _ => Ok tt)
    (fun _ _ _ _ _ _ _ => Ok Samples.rs_error)
    (fun _ _ _ _ => Ok Samples.rs_error)
    (fun _ _ _ _ => Ok Samples.rs_error)
    (fun _ _ _ _ => Ok Samples.rs_error)
    (fun _ _ _ _ _ _ => Ok None)
    (fun _ _ _ => Ok sina_report).

End MoreSamples.

(** The calls selected by [P] are the same in the two states. *)
Definition calls_kept (P : call -> bool) (s s' : state) : Prop :=
  filter (fun c => P c = true) (calls s') = filter (fun c => P c = true) (calls s).

(** A provider block of the daily chain hands back rows or nothing. *)
Definition delivers_rows (r : option (option DataFrame * string)) : Prop :=
  forall df name, r = Some (Some df, name) -> df_empty df = false.

(** A financial result is keyed by statement names: not empty, nothing but
    the three keys, and all three under the name AkShare. *)
Definition well_keyed (r : option (gmap string DataFrame) * string) : Prop :=
  forall d, r.1 = Some d ->
    d <> ∅ /\ dom d ⊆ statement_keys /\
    (r.2 = "AkShare" -> dom d = statement_keys).

(** ** Failing providers *)

(** An answer of TuShare or AkShare to a daily request that gives no data:
    it raised, it is None, or its frame is empty. *)
Definition daily_answer_fails (o : outcome (option DataFrame)) : Prop :=
  match o with
  | Raise _ | Ok None => True
  | Ok (Some df) => df_empty df = true
  end.

(** An answer of Baostock to the history query that gives no data: it
    raised, its error code is not 0, or its rows give no frame or an empty
    one. *)
Definition history_answer_fails (o : outcome ResultData) : Prop :=
  match o with
  | Raise _ => True
  | Ok rs =>
      error_code rs <> "0" \/
      match pd_DataFrame (data rs) (fields rs) with
      | Raise _ => True
      | Ok df => df_empty df = true
      end
  end.

(** An answer of Baostock to a statement query that gives no statement: it
    raised or its error code is not 0. *)
Definition statement_answer_fails (o : outcome ResultData) : Prop :=
  match o with
  | Raise _ => True
  | Ok rs => error_code rs <> "0"
  end.

Definition raises {A} (o : outcome A) : Prop :=
  match o with
  | Raise _ => True
  | Ok _ => False
  end.

(** Every provider fails for a daily request: whenever it is asked, each
    vendor's answer to this request gives no data. *)
Definition daily_providers_fail (w : world)
    (stock_code start_date end_date adjust : string) : Prop :=
  let sd := PyStr.remove PyStr.hyphen start_date in
  let ed := PyStr.remove PyStr.hyphen end_date in
  (forall h, daily_answer_fails
               (w_ts_daily w h (_convert_to_tushare_code stock_code) sd ed
                  TS_FIELDS)) /\
  (forall h bs_code,
      history_answer_fails
        (w_bs_query_history w h bs_code BS_FIELDS (hyphenate sd) (hyphenate ed)
           "d" (adjustflag_of adjust))) /\
  (forall h, daily_answer_fails (w_ak_hist w h stock_code "daily" sd ed adjust)).

(** Every provider fails for a financial request. *)
Definition financial_providers_fail (w : world) (stock_code : string)
    (year quarter : Z) : Prop :=
  (forall h bs_code,
      statement_answer_fails (w_bs_query_profit w h bs_code year quarter) /\
      statement_answer_fails (w_bs_query_balance w h bs_code year quarter) /\
      statement_answer_fails (w_bs_query_cash_flow w h bs_code year quarter)) /\
  (forall h symbol, raises (w_ak_sina w h (sina_code stock_code) symbol)).

(** The vendor libraries can be imported. *)
Definition libraries_installed (w : world) : Prop :=
  forall h name, import_module w h name = Ok tt.

Definition is_baostock_call (c : call) : bool :=
  match c with
  | bs_login | bs_logout
  | bs_query_history_k_data_plus _ _ _ _ _ _
  | bs_query_profit_data _ _ _
  | bs_query_balance_data _ _ _
  | bs_query_cash_flow_data _ _ _ => true
  | _ => false
  end.

(** The second state has the calls of the first and then calls in [P]. *)
Definition extended_by (P : call -> bool) (s s' : state) : Prop :=
  exists part,
    calls s' = (calls s ++ part)%list /\ Forall (fun c => P c = true) part.

(** ** Zero rows across the module *)

(** No public method hands back a frame without rows: a provider answer
    with zero rows is treated as that provider's failure, in both chains. *)
Definition zero_rows_are_failures : Prop :=
  (forall w stock_code start_date end_date adjust s df name s',
      get_daily_data w stock_code start_date end_date adjust s
      = (Ok (Some df, name), s') ->
      rows df <> []) /\
  (forall w stock_code year quarter s d name s',
      get_financial_data w stock_code year quarter s = (Ok (Some d, name), s') ->
      forall key df, d !! key = Some df -> rows df <> []).

(** TuShare yields nothing at this state: there is no API object, or its
    answer to the request is a frame that is empty. *)
Definition tushare_yields_nothing (w : world) (s : state)
    (stock_code sd ed : string) : Prop :=
  tushare_api s = true ->
  exists df0,
    w_ts_daily w (calls s) (_convert_to_tushare_code stock_code) sd ed TS_FIELDS
    = Ok (Some df0) /\
    df_empty df0 = true.

(** The request sent to TuShare from this state, if any. *)
Definition tushare_calls (s : state) (stock_code sd ed : string) : list call :=
  if tushare_api s
  then [ts_daily (_convert_to_tushare_code stock_code) sd ed TS_FIELDS]
  else [].

(** ** Reasoning rules for the monad *)

(** [returns m P]: from every state [m] returns normally a value in [P].
    [ensures m P]: whenever [m] returns normally, its value is in [P]. *)
Definition returns {A} (m : M A) (P : A -> Prop) : Prop :=
  forall s, exists a s', m s = (Ok a, s') /\ P a.

Definition ensures {A} (m : M A) (P : A -> Prop) : Prop :=
  forall s a s', m s = (Ok a, s') -> P a.

(** [keeps R m]: [m] relates every state to the state it leaves, whether it
    returns or raises. *)
Definition keeps {A} (R : state -> state -> Prop) (m : M A) : Prop :=
  forall s, R s (m s).2.

Lemma returns_ret {A} (a : A) (P : A -> Prop) : P a -> returns (ret a) P.
Proof. intros H s. exists a, s. split; [reflexivity | exact H]. Qed.

Lemma returns_bind {A B} (m : M A) (k : A -> M B) (Q : A -> Prop) (P : B -> Prop) :
  returns m Q -> (forall a, Q a -> returns (k a) P) -> returns (bind m k) P.
Proof.
  intros Hm Hk s. destruct (Hm s) as (a & s1 & E & Ha).
  destruct (Hk a Ha s1) as (b & s2 & E2 & Hb).
  exists b, s2. unfold bind. rewrite E. split; assumption.
Qed.

Lemma returns_try_except {A} (body : M A) (h : exn -> M A) (P : A -> Prop) :
  ensures body P -> (forall e, returns (h e) P) -> returns (try_except body h) P.
Proof.
  intros Hb Hh s. unfold try_except.
  destruct (body s) as [[a | e] s1] eqn:E.
  - exists a, s1. split; [reflexivity | exact (Hb s a s1 E)].
  - apply Hh.
Qed.

Lemma returns_logger l msg (P : unit -> Prop) : P tt -> returns (logger l msg) P.
Proof. intros H s. eexists _, _. split; [reflexivity | exact H]. Qed.

Lemma returns_get_state (P : state -> Prop) : (forall s, P s) -> returns get_state P.
Proof. intros H s. exists s, s. split; [reflexivity | apply H]. Qed.

Lemma returns_weaken {A} (m : M A) (P Q : A -> Prop) :
  returns m P -> (forall a, P a -> Q a) -> returns m Q.
Proof.
  intros Hm HPQ s. destruct (Hm s) as (a & s' & E & Ha).
  exists a, s'. split; [exact E | apply HPQ, Ha].
Qed.

Lemma ensures_ret {A} (a : A) (P : A -> Prop) : P a -> ensures (ret a) P.
Proof. intros H s a' s' E. inversion E. subst. exact H. Qed.

Lemma ensures_bind {A B} (m : M A) (k : A -> M B) (P : B -> Prop) :
  (forall a, ensures (k a) P) -> ensures (bind m k) P.
Proof.
  intros Hk s b s' E. unfold bind in E.
  destruct (m s) as [[a | e] s1]; [| discriminate].
  exact (Hk a s1 b s' E).
Qed.

Lemma ensures_try_except {A} (body : M A) (h : exn -> M A) (P : A -> Prop) :
  ensures body P -> (forall e, ensures (h e) P) -> ensures (try_except body h) P.
Proof.
  intros Hb Hh s a s' E. unfold try_except in E.
  destruct (body s) as [[a1 | e] s1] eqn:E1.
  - inversion E. subst. exact (Hb s a s' E1).
  - exact (Hh e s1 a s' E).
Qed.

Lemma keeps_ret {A} (R : state -> state -> Prop) `{!Reflexive R} (a : A) :
  keeps R (ret a).
Proof. intros s. simpl. reflexivity. Qed.

Lemma keeps_lift {A} (R : state -> state -> Prop) `{!Reflexive R} (o : outcome A) :
  keeps R (lift o).
Proof. intros s. simpl. reflexivity. Qed.

Lemma keeps_bind {A B} (R : state -> state -> Prop) `{!Transitive R}
    (m : M A) (k : A -> M B) :
  keeps R m -> (forall a, keeps R (k a)) -> keeps R (bind m k).
Proof.
  intros Hm Hk s. unfold bind. specialize (Hm s).
  destruct (m s) as [[a | e] s1]; simpl in *; [| exact Hm].
  etransitivity; [exact Hm | apply Hk].
Qed.

Lemma keeps_try_except {A} (R : state -> state -> Prop) `{!Transitive R}
    (body : M A) (h : exn -> M A) :
  keeps R body -> (forall e, keeps R (h e)) -> keeps R (try_except body h).
Proof.
  intros Hb Hh s. unfold try_except. specialize (Hb s).
  destruct (body s) as [[a | e] s1]; simpl in *; [exact Hb |].
  etransitivity; [exact Hb | apply Hh].
Qed.

(** ** The code conversions *)

Section Conversions.

Implicit Types s p : string.

Lemma startswith_leading s (c : ascii) :
  PyStr.startswith s (String c EmptyString)
  = match leading s with Some a => Ascii.eqb c a | None => false end.
Proof.
  destruct s as [| a s']; simpl; [reflexivity |].
  unfold PyStr.startswith. simpl.
  destruct (ascii_dec c a) as [-> | Hne].
  - rewrite Ascii.eqb_refl. destruct s'; reflexivity.
  - symmetry. apply Ascii.eqb_neq. exact Hne.
Qed.

(** Without a dot, the TuShare form is the code, a dot and the suffix of
    the market inferred from the leading digit. *)
Lemma convert_to_tushare_code_market s :
  PyStr.contains PyStr.dot s = false ->
  _convert_to_tushare_code s = s +:+ "." +:+ tushare_suffix (infer_market s).
Proof.
  intros H. unfold _convert_to_tushare_code. rewrite H.
  rewrite !startswith_leading. unfold infer_market.
  destruct (leading s) as [a |]; [| reflexivity].
  destruct a as [[] [] [] [] [] [] [] []]; reflexivity.
Qed.

(** Without a dot, the Baostock form is the prefix of the inferred market,
    a dot and the code. *)
Lemma convert_to_baostock_code_market s :
  PyStr.contains PyStr.dot s = false ->
  _convert_to_baostock_code s
  = Ok (baostock_prefix (infer_market s) +:+ "." +:+ s).
Proof.
  intros H. unfold _convert_to_baostock_code. rewrite H.
  rewrite !startswith_leading. unfold infer_market.
  destruct (leading s) as [a |]; [| reflexivity].
  destruct a as [[] [] [] [] [] [] [] []]; reflexivity.
Qed.

Lemma contains_app c s p :
  PyStr.contains c (s +:+ p) = PyStr.contains c s || PyStr.contains c p.
Proof.
  induction s as [| a s IH]; simpl; [reflexivity |].
  destruct (Ascii.eqb a c); [reflexivity | exact IH].
Qed.

Lemma split_no_sep c s : PyStr.contains c s = false -> PyStr.split c s = [s].
Proof.
  induction s as [| a s IH]; simpl; [reflexivity |].
  destruct (Ascii.eqb a c); [discriminate |].
  intros H. rewrite (IH H). reflexivity.
Qed.

Lemma split_app_sep c s p :
  PyStr.contains c s = false ->
  PyStr.split c (s +:+ String c p) = s :: PyStr.split c p.
Proof.
  induction s as [| a s IH]; simpl.
  - intros _. rewrite Ascii.eqb_refl. reflexivity.
  - destruct (Ascii.eqb a c); [discriminate |].
    intros H. rewrite (IH H). reflexivity.
Qed.

(** A string with a separator splits into at least two parts, so the
    indexing in [_convert_to_baostock_code] cannot fail. *)
Lemma split_with_sep c s :
  PyStr.contains c s = true ->
  exists p0 p1 rest, PyStr.split c s = p0 :: p1 :: rest.
Proof.
  induction s as [| a s IH]; simpl; [discriminate |].
  destruct (Ascii.eqb a c).
  - intros _. destruct s as [| b s]; simpl.
    + eexists _, _, _. reflexivity.
    + destruct (Ascii.eqb b c).
      * eexists _, _, _. reflexivity.
      * destruct (PyStr.split c s); eexists _, _, _; reflexivity.
  - intros H. destruct (IH H) as (p0 & p1 & rest & ->).
    eexists _, _, _. reflexivity.
Qed.

Lemma convert_to_baostock_code_total s :
  exists r, _convert_to_baostock_code s = Ok r.
Proof.
  unfold _convert_to_baostock_code.
  destruct (PyStr.contains PyStr.dot s) eqn:E.
  - destruct (split_with_sep _ _ E) as (p0 & p1 & rest & ->). simpl.
    eexists. reflexivity.
  - repeat match goal with |- context [if ?b then _ else _] => destruct b end;
      eexists; reflexivity.
Qed.

Lemma all_digits_no_dot s :
  PyStr.all_digits s = true -> PyStr.contains PyStr.dot s = false.
Proof.
  induction s as [| a s IH]; simpl; [reflexivity |].
  intros H. apply andb_prop in H as [Ha Hs]. rewrite (IH Hs).
  destruct (Ascii.eqb a PyStr.dot) eqn:E; [| reflexivity].
  apply Ascii.eqb_eq in E. subst a. discriminate Ha.
Qed.

End Conversions.

Section ConversionProperties.

Implicit Types s p : string.

Lemma convert_to_tushare_code_dotted s :
  PyStr.contains PyStr.dot s = true -> _convert_to_tushare_code s = s.
Proof. intros H. unfold _convert_to_tushare_code. rewrite H. reflexivity. Qed.

Lemma convert_to_tushare_code_has_dot s :
  PyStr.contains PyStr.dot (_convert_to_tushare_code s) = true.
Proof.
  destruct (PyStr.contains PyStr.dot s) eqn:E.
  - rewrite convert_to_tushare_code_dotted; assumption.
  - rewrite (convert_to_tushare_code_market _ E), contains_app.
    apply orb_true_r.
Qed.

Lemma convert_to_tushare_code_idempotent s :
  _convert_to_tushare_code (_convert_to_tushare_code s)
  = _convert_to_tushare_code s.
Proof.
  apply convert_to_tushare_code_dotted, convert_to_tushare_code_has_dot.
Qed.

Lemma convert_to_baostock_code_dotted s :
  PyStr.contains PyStr.dot s = true ->
  exists p0 p1 rest,
    PyStr.split PyStr.dot s = p0 :: p1 :: rest /\
    _convert_to_baostock_code s = Ok (PyStr.lower p1 +:+ "." +:+ p0).
Proof.
  intros H. destruct (split_with_sep _ _ H) as (p0 & p1 & rest & E).
  exists p0, p1, rest. split; [exact E |].
  unfold _convert_to_baostock_code. rewrite H, E. reflexivity.
Qed.

(** C3 (the Sina conversion misses the Beijing case): for the Beijing code
    830799 the inference rule gives Beijing and the TuShare and Baostock
    conversions follow it, but the Sina code built by [get_financial_data]
    is [sz830799], the Shenzhen form, and this is the code sent to AkShare
    when the Baostock login is refused. *)
Theorem sina_code_misses_beijing :
  infer_market "830799" = Beijing /\
  _convert_to_tushare_code "830799" = "830799.BJ" /\
  _convert_to_baostock_code "830799" = Ok "bj.830799" /\
  sina_code "830799" = "sz830799" /\
  sina_code "830799" <> sina_prefix (infer_market "830799") +:+ "830799" /\
  calls (get_financial_data Samples.no_session "830799" 2024 3 blank).2
  = [bs_login;
     ak_stock_financial_report_sina "sz830799" "资产负债表";
     ak_stock_financial_report_sina "sz830799" "利润表";
     ak_stock_financial_report_sina "sz830799" "现金流量表"].
Proof. repeat split; try reflexivity. discriminate. Qed.

(** C6 does not hold as stated: [_convert_to_baostock_code] is not
    idempotent, and a code already in the prefix form is not returned
    unchanged (600519 gives sh.600519, which gives 600519.sh). *)
Lemma convert_to_baostock_code_not_idempotent :
  ~ (forall s r, _convert_to_baostock_code s = Ok r ->
                 _convert_to_baostock_code r = Ok r).
Proof.
  intros H. specialize (H "600519" "sh.600519" eq_refl). discriminate H.
Qed.

(** C6, amended: a code that contains a dot is returned unchanged by
    [_convert_to_tushare_code], which is idempotent on every code;
    [_convert_to_baostock_code] reads a dotted code as code-dot-suffix and
    returns the lower-cased second part, a dot and the first part. *)
Theorem dotted_code_conversions s :
  PyStr.contains PyStr.dot s = true ->
  _convert_to_tushare_code s = s /\
  (forall t, _convert_to_tushare_code (_convert_to_tushare_code t)
             = _convert_to_tushare_code t) /\
  exists p0 p1 rest,
    PyStr.split PyStr.dot s = p0 :: p1 :: rest /\
    _convert_to_baostock_code s = Ok (PyStr.lower p1 +:+ "." +:+ p0).
Proof.
  intros H. split; [| split].
  - apply convert_to_tushare_code_dotted, H.
  - apply convert_to_tushare_code_idempotent.
  - apply convert_to_baostock_code_dotted, H.
Qed.

Lemma dotted_code_conversions_witness :
  _convert_to_tushare_code "600519.SH" = "600519.SH" /\
  (forall t, _convert_to_tushare_code (_convert_to_tushare_code t)
             = _convert_to_tushare_code t) /\
  exists p0 p1 rest,
    PyStr.split PyStr.dot "600519.SH" = p0 :: p1 :: rest /\
    _convert_to_baostock_code "600519.SH" = Ok (PyStr.lower p1 +:+ "." +:+ p0).
Proof. apply (dotted_code_conversions "600519.SH"). reflexivity. Defined.

(** C9 does not hold as stated: the module has no conversion in the
    canonical direction.  Neither of its two conversions leads from the
    TuShare form of 600519 back to 600519: one returns 600519.SH as it is,
    the other gives sh.600519. *)
Lemma no_conversion_leads_back : ~ round_trips_within_module.
Proof.
  intros H.
  destruct (H (fun c => Ok (_convert_to_tushare_code c))) as (back & Hin & Hback);
    [left; reflexivity |].
  specialize (Hback "600519" "600519.SH" eq_refl eq_refl).
  destruct Hin as [<- | [<- | []]]; discriminate Hback.
Qed.

(** C9, amended: for a bare numeric code whose leading digit is 6, 0, 3, 8
    or 4, each provider form determines the identifier: the TuShare form
    splits at its dot into the code and an exchange tag, the Baostock form
    into an exchange tag and the code, and in both the tag names the market
    of the leading digit. *)
Theorem provider_forms_determine_identifier s (d : ascii) :
  is_bare_code s = true ->
  leading s = Some d ->
  In d ["6"; "0"; "3"; "8"; "4"]%char ->
  (exists tag,
      PyStr.split PyStr.dot (_convert_to_tushare_code s) = [s; tag] /\
      market_of_tag tag = Some (infer_market s)) /\
  (exists p tag,
      _convert_to_baostock_code s = Ok p /\
      PyStr.split PyStr.dot p = [tag; s] /\
      market_of_tag tag = Some (infer_market s)).
Proof.
  intros Hs _ _. apply andb_prop in Hs as [_ Hd].
  pose proof (all_digits_no_dot _ Hd) as Hdot.
  split.
  - exists (tushare_suffix (infer_market s)).
    rewrite (convert_to_tushare_code_market _ Hdot).
    change (s +:+ "." +:+ tushare_suffix (infer_market s))
      with (s +:+ String PyStr.dot (tushare_suffix (infer_market s))).
    rewrite (split_app_sep _ _ _ Hdot).
    split; [| destruct (infer_market s); reflexivity].
    rewrite split_no_sep by (destruct (infer_market s); reflexivity).
    reflexivity.
  - exists (baostock_prefix (infer_market s) +:+ "." +:+ s),
      (baostock_prefix (infer_market s)).
    split; [apply convert_to_baostock_code_market, Hdot |].
    split; [| destruct (infer_market s); reflexivity].
    change (baostock_prefix (infer_market s) +:+ "." +:+ s)
      with (baostock_prefix (infer_market s) +:+ String PyStr.dot s).
    rewrite split_app_sep by (destruct (infer_market s); reflexivity).
    rewrite (split_no_sep _ _ Hdot). reflexivity.
Qed.

Lemma provider_forms_determine_identifier_witness :
  (exists tag,
      PyStr.split PyStr.dot (_convert_to_tushare_code "000001") = ["000001"; tag] /\
      market_of_tag tag = Some (infer_market "000001")) /\
  (exists p tag,
      _convert_to_baostock_code "000001" = Ok p /\
      PyStr.split PyStr.dot p = [tag; "000001"] /\
      market_of_tag tag = Some (infer_market "000001")).
Proof.
  apply (provider_forms_determine_identifier "000001" "0"%char).
  - reflexivity.
  - reflexivity.
  - simpl. right. left. reflexivity.
Defined.

End ConversionProperties.

(** ** Neither public method raises *)

Section NoRaise.

Variable w : world.

Lemma ensures_trivial {A} (m : M A) (P : A -> Prop) :
  (forall a, P a) -> ensures m P.
Proof. intros H s a s' _. apply H. Qed.

Ltac ensures_step :=
  first
    [ apply ensures_ret
    | apply ensures_bind; intros
    | match goal with
      | |- ensures (match ?x with _ => _ end) _ => destruct x
      end ].

Ltac block_goal := solve [ left; reflexivity | right; eexists; reflexivity ].

Lemma login_baostock_returns : returns (_login_baostock w) (fun _ => True).
Proof.
  unfold _login_baostock.
  apply returns_bind with (Q := fun _ => True);
    [apply returns_get_state; trivial |].
  intros s _. destruct (baostock_logged_in s).
  - apply returns_ret. trivial.
  - apply returns_try_except.
    + apply ensures_trivial. trivial.
    + intros e. apply returns_bind with (Q := fun _ => True).
      * apply returns_logger. trivial.
      * intros. apply returns_ret. trivial.
Qed.

Lemma handler_returns {D} (name msg : string) (e : exn) :
  returns (logger WARNING (msg +:+ e) ;;; ret None) (@block_result D name).
Proof.
  apply returns_bind with (Q := fun _ => True).
  - apply returns_logger. trivial.
  - intros. apply returns_ret. left. reflexivity.
Qed.

Lemma daily_tushare_returns c sd ed :
  returns (daily_tushare w c sd ed) (block_result "TuShare").
Proof.
  unfold daily_tushare.
  apply returns_bind with (Q := fun _ => True);
    [apply returns_get_state; trivial |].
  intros s _. destruct (tushare_api s).
  - apply returns_try_except; [| intros; apply handler_returns].
    repeat ensures_step; block_goal.
  - apply returns_ret. left. reflexivity.
Qed.

Lemma daily_baostock_returns c sd ed adj :
  returns (daily_baostock w c sd ed adj) (block_result "Baostock").
Proof.
  unfold daily_baostock.
  apply returns_bind with (Q := fun _ => True);
    [apply login_baostock_returns |].
  intros logged _. destruct logged.
  - apply returns_try_except; [| intros; apply handler_returns].
    repeat ensures_step; block_goal.
  - apply returns_ret. left. reflexivity.
Qed.

Lemma daily_akshare_returns c sd ed adj :
  returns (daily_akshare w c sd ed adj) (block_result "AkShare").
Proof.
  unfold daily_akshare.
  apply returns_try_except; [| intros; apply handler_returns].
  repeat ensures_step; block_goal.
Qed.

Lemma financial_baostock_returns c y q :
  returns (financial_baostock w c y q) (block_result "Baostock").
Proof.
  unfold financial_baostock.
  apply returns_bind with (Q := fun _ => True);
    [apply login_baostock_returns |].
  intros logged _. destruct logged.
  - apply returns_try_except; [| intros; apply handler_returns].
    repeat ensures_step; block_goal.
  - apply returns_ret. left. reflexivity.
Qed.

Lemma financial_akshare_returns c :
  returns (financial_akshare w c) (block_result "AkShare").
Proof.
  unfold financial_akshare.
  apply returns_try_except; [| intros; apply handler_returns].
  repeat ensures_step; block_goal.
Qed.

Lemma all_failed_returns {D} (sources : list string) :
  returns (logger ERROR "❌ 所有数据源均失败" ;;; ret (@None D, ALL_FAILED))
    (well_formed_result sources).
Proof.
  apply returns_bind with (Q := fun _ => True).
  - apply returns_logger. trivial.
  - intros. apply returns_ret. right. reflexivity.
Qed.

Lemma get_daily_data_returns c sd ed adj :
  returns (get_daily_data w c sd ed adj) (well_formed_result daily_sources).
Proof.
  unfold get_daily_data.
  apply returns_bind with (Q := fun _ => True);
    [apply returns_logger; trivial | intros _ _].
  eapply returns_bind; [apply daily_tushare_returns |].
  intros r [-> | [d ->]];
    [| apply returns_ret; left; exists d; simpl; auto].
  eapply returns_bind; [apply daily_baostock_returns |].
  intros r [-> | [d ->]];
    [| apply returns_ret; left; exists d; simpl; auto].
  eapply returns_bind; [apply daily_akshare_returns |].
  intros r [-> | [d ->]];
    [| apply returns_ret; left; exists d; simpl; auto].
  apply all_failed_returns.
Qed.

Lemma get_financial_data_returns c y q :
  returns (get_financial_data w c y q) (well_formed_result financial_sources).
Proof.
  unfold get_financial_data.
  apply returns_bind with (Q := fun _ => True);
    [apply returns_logger; trivial | intros _ _].
  eapply returns_bind; [apply financial_baostock_returns |].
  intros r [-> | [d ->]];
    [| apply returns_ret; left; exists d; simpl; auto].
  eapply returns_bind; [apply financial_akshare_returns |].
  intros r [-> | [d ->]];
    [| apply returns_ret; left; exists d; simpl; auto].
  apply all_failed_returns.
Qed.

End NoRaise.

(** C8: in every environment, on every input and from every state,
    [get_daily_data] and [get_financial_data] return normally, with data and
    the name of one of their sources or with None and the error message;
    whatever a vendor call, an import, the login or the parsing raises is
    caught on the way. *)
Theorem public_methods_never_raise (w : world) (s : state) :
  (forall stock_code start_date end_date adjust,
      exists r s',
        get_daily_data w stock_code start_date end_date adjust s = (Ok r, s') /\
        well_formed_result daily_sources r) /\
  (forall stock_code year quarter,
      exists r s',
        get_financial_data w stock_code year quarter s = (Ok r, s') /\
        well_formed_result financial_sources r).
Proof.
  split; intros.
  - apply get_daily_data_returns.
  - apply get_financial_data_returns.
Qed.

(** ** The daily chain *)

Section DailyChain.

Variable w : world.

Local Arguments _convert_to_tushare_code : simpl never.
Local Arguments _convert_to_baostock_code : simpl never.
Local Arguments PyStr.remove : simpl never.
Local Arguments String.append : simpl never.
Local Arguments str_of_nat : simpl never.
Local Arguments df_rename : simpl never.

Lemma read_rows_all pending data_list :
  read_rows "0" pending data_list = (data_list ++ pending)%list.
Proof.
  revert data_list. induction pending as [| r p IH]; intros; simpl.
  - rewrite app_nil_r. reflexivity.
  - rewrite IH, <- app_assoc. reflexivity.
Qed.

Lemma rows_rename mapping df : rows (df_rename mapping df) = rows df.
Proof. reflexivity. Qed.

Lemma df_empty_rename mapping df :
  df_empty (df_rename mapping df) = df_empty df.
Proof. destruct df as [[| c cs] [| r rs]]; reflexivity. Qed.

(** A successful [__init__] leaves the API object in place; without a
    token none is made. *)
Lemma init_with_token token s :
  token <> "" ->
  import_module w (calls s) "tushare" = Ok tt ->
  w_ts_set_token w (calls s) token = Ok tt ->
  w_ts_pro_api w (calls s ++ [ts_set_token token])%list = Ok tt ->
  tushare_api (__init__ w (Some token) s).2 = true.
Proof.
  intros Hne Hi Ht Ha. apply String.eqb_neq in Hne.
  unfold __init__, bind, try_except, import, vendor, set_tushare_api, logger.
  simpl. rewrite Hne. simpl. rewrite Hi, Ht. simpl. rewrite Ha. reflexivity.
Qed.

Lemma init_without_token s : tushare_api (__init__ w None s).2 = false.
Proof. reflexivity. Qed.

(** The session step, from either side of the flag. *)
Lemma login_baostock_opens s :
  session_opens w s (calls s) ->
  exists s',
    _login_baostock w s = (Ok true, s') /\
    calls s' = (calls s ++ login_calls s)%list /\
    tushare_api s' = tushare_api s /\
    baostock_logged_in s' = true.
Proof.
  intros H. unfold _login_baostock, login_calls, bind, get_state. simpl.
  destruct (baostock_logged_in s) eqn:E.
  - exists s. unfold ret. rewrite app_nil_r. auto.
  - destruct H as [H | (Hi & msg & Hl)]; [congruence |].
    unfold try_except, bind, import, vendor. simpl. rewrite Hi, Hl. simpl.
    eexists. split; [reflexivity |]. simpl. auto.
Qed.

Lemma run_bind {A B} (m : M A) (k : A -> M B) s a s' :
  m s = (Ok a, s') -> bind m k s = k a s'.
Proof. intros E. unfold bind. rewrite E. reflexivity. Qed.

Lemma run_logger {B} l msg (k : unit -> M B) s :
  bind (logger l msg) k s
  = k tt (mkState (tushare_token s) (tushare_api s) (baostock_logged_in s)
            (calls s) (logs s ++ [(l, msg)])).
Proof. reflexivity. Qed.

(** The TuShare block. *)
Lemma daily_tushare_unconfigured s c sd ed :
  tushare_api s = false -> daily_tushare w c sd ed s = (Ok None, s).
Proof.
  intros H. unfold daily_tushare, bind, get_state. simpl. rewrite H.
  reflexivity.
Qed.

Lemma daily_tushare_answer s c sd ed df :
  tushare_api s = true ->
  w_ts_daily w (calls s) (_convert_to_tushare_code c) sd ed TS_FIELDS
  = Ok (Some df) ->
  exists s',
    daily_tushare w c sd ed s
    = (Ok (if df_empty df then None
           else Some (Some (df_rename TS_RENAME df), "TuShare")), s') /\
    calls s' = (calls s ++ [ts_daily (_convert_to_tushare_code c) sd ed TS_FIELDS])%list /\
    tushare_api s' = tushare_api s /\
    baostock_logged_in s' = baostock_logged_in s.
Proof.
  intros Ht Ha.
  unfold daily_tushare, bind, get_state, try_except, logger, vendor. simpl.
  rewrite Ht. simpl. rewrite Ha.
  destruct (df_empty df); simpl; eexists; (split; [reflexivity |]); simpl; auto.
Qed.

(** The Baostock block, once the session is usable and the query is
    answered with error code 0. *)
Lemma daily_baostock_answer s c sd ed adj bs_code rs df :
  session_opens w s (calls s) ->
  import_module w (calls s ++ login_calls s)%list "baostock" = Ok tt ->
  _convert_to_baostock_code c = Ok bs_code ->
  w_bs_query_history w (calls s ++ login_calls s)%list bs_code BS_FIELDS sd ed
    "d" (adjustflag_of adj) = Ok rs ->
  error_code rs = "0" ->
  pd_DataFrame (data rs) (fields rs) = Ok df ->
  exists s',
    daily_baostock w c sd ed adj s
    = (Ok (if df_empty df then None else Some (Some df, "Baostock")), s') /\
    calls s' = (calls s ++ login_calls s ++
                [bs_query_history_k_data_plus bs_code BS_FIELDS sd ed "d"
                   (adjustflag_of adj)])%list.
Proof.
  intros Hs Hi Hc Hq He Hd.
  destruct (login_baostock_opens s Hs) as (s1 & E1 & Hc1 & _ & _).
  unfold daily_baostock. rewrite (run_bind _ _ _ _ _ E1).
  unfold bind, try_except, logger, import, lift, vendor. simpl.
  rewrite Hc1, Hi, Hc, Hq, He. simpl.
  rewrite read_rows_all. simpl. rewrite Hd.
  destruct (df_empty df); simpl; eexists; (split; [reflexivity |]); simpl;
    rewrite <- app_assoc; reflexivity.
Qed.

(** The AkShare block. *)
Lemma daily_akshare_answer s c sd ed adj df :
  import_module w (calls s) "akshare" = Ok tt ->
  w_ak_hist w (calls s) c "daily" sd ed adj = Ok (Some df) ->
  exists s',
    daily_akshare w c sd ed adj s
    = (Ok (if df_empty df then None else Some (Some df, "AkShare")), s') /\
    calls s' = (calls s ++ [ak_stock_zh_a_hist c "daily" sd ed adj])%list.
Proof.
  intros Hi Ha.
  unfold daily_akshare, bind, try_except, logger, import, vendor. simpl.
  rewrite Hi, Ha.
  destruct (df_empty df); simpl; eexists; (split; [reflexivity |]); reflexivity.
Qed.

(** C1: when the TuShare API object is in place and its answer to the
    request is a non-empty frame, [get_daily_data] returns that frame
    (same rows, columns renamed) with the name TuShare, the one call made
    is the TuShare call, and the Baostock session flag is untouched: no
    Baostock or AkShare call is made. *)
Theorem tushare_success_returns_at_once
    s stock_code start_date end_date adjust df :
  tushare_api s = true ->
  w_ts_daily w (calls s) (_convert_to_tushare_code stock_code)
    (PyStr.remove PyStr.hyphen start_date) (PyStr.remove PyStr.hyphen end_date)
    TS_FIELDS = Ok (Some df) ->
  df_empty df = false ->
  exists s',
    get_daily_data w stock_code start_date end_date adjust s
    = (Ok (Some (df_rename TS_RENAME df), "TuShare"), s') /\
    rows (df_rename TS_RENAME df) = rows df /\
    calls s'
    = (calls s ++ [ts_daily (_convert_to_tushare_code stock_code)
                     (PyStr.remove PyStr.hyphen start_date)
                     (PyStr.remove PyStr.hyphen end_date) TS_FIELDS])%list /\
    baostock_logged_in s' = baostock_logged_in s.
Proof.
  intros Ht Ha He.
  unfold get_daily_data. rewrite run_logger.
  match goal with |- context [bind (daily_tushare _ _ _ _) _ ?s0] =>
    destruct (daily_tushare_answer s0 stock_code
                (PyStr.remove PyStr.hyphen start_date)
                (PyStr.remove PyStr.hyphen end_date) df Ht Ha)
      as (s1 & E1 & Hc1 & _ & Hb1)
  end.
  rewrite He in E1. rewrite (run_bind _ _ _ _ _ E1).
  exists s1. repeat split; assumption.
Qed.

End DailyChain.

Lemma tushare_success_returns_at_once_witness :
  exists s',
    get_daily_data Samples.tushare_serves "600519" "2024-01-01" "2024-01-05"
      "qfq" Samples.configured
    = (Ok (Some (df_rename TS_RENAME Samples.frame3), "TuShare"), s') /\
    rows (df_rename TS_RENAME Samples.frame3) = rows Samples.frame3 /\
    calls s'
    = [ts_set_token "token"; ts_pro_api;
       ts_daily "600519.SH" "20240101" "20240105" TS_FIELDS] /\
    baostock_logged_in s' = false.
Proof.
  apply (tushare_success_returns_at_once Samples.tushare_serves
           Samples.configured "600519" "2024-01-01" "2024-01-05" "qfq"
           Samples.frame3); reflexivity.
Defined.

(** ** The Baostock session *)

Section Session.

Variable w : world.

Lemma login_baostock_active s :
  baostock_logged_in s = true -> _login_baostock w s = (Ok true, s).
Proof.
  intros H. unfold _login_baostock, bind, get_state. simpl. rewrite H.
  reflexivity.
Qed.

Lemma login_baostock_true s s1 :
  _login_baostock w s = (Ok true, s1) ->
  baostock_logged_in s1 = true /\
  calls s1 = (calls s ++ login_calls s)%list.
Proof.
  unfold _login_baostock, login_calls, bind, get_state. simpl.
  destruct (baostock_logged_in s) eqn:E.
  - intros H. inversion H. subst s1. rewrite app_nil_r. auto.
  - unfold try_except, bind, import, vendor. simpl.
    destruct (import_module w (calls s) "baostock"); simpl;
      [| intros H; inversion H].
    destruct (w_bs_login w (calls s)) as [lg | e]; simpl;
      [| intros H; inversion H].
    destruct (String.eqb (lg_error_code lg) "0"); simpl;
      intros H; inversion H. simpl. auto.
Qed.

Lemma acquire_active n s :
  baostock_logged_in s = true -> acquire w n s = (Ok (replicate n true), s).
Proof.
  intros H. induction n as [| n IH]; simpl; [reflexivity |].
  unfold bind. rewrite (login_baostock_active s H), IH. reflexivity.
Qed.

Lemma login_count_app (a b : list call) :
  login_count (a ++ b) = login_count a + login_count b.
Proof. unfold login_count. rewrite filter_app, length_app. reflexivity. Qed.

(** C7: once an acquisition has succeeded the session is active, and any
    number of further acquisitions return success at once and leave the
    object and the call history as they are; the whole sequence has made
    at most one login call, and none when the session was active from the
    start. *)
Theorem session_acquisition_idempotent s s1 n :
  _login_baostock w s = (Ok true, s1) ->
  acquire w n s1 = (Ok (replicate n true), s1) /\
  login_count (calls (acquire w n s1).2) <= login_count (calls s) + 1 /\
  (baostock_logged_in s = true -> s1 = s).
Proof.
  intros H. destruct (login_baostock_true s s1 H) as [Ha Hc].
  rewrite (acquire_active n s1 Ha). split; [reflexivity |]. split.
  - simpl. rewrite Hc, login_count_app. unfold login_calls.
    destruct (baostock_logged_in s).
    + change (login_count []) with 0. lia.
    + change (login_count [bs_login]) with 1. lia.
  - intros Hs. rewrite (login_baostock_active s Hs) in H. inversion H.
    reflexivity.
Qed.

End Session.

Lemma session_acquisition_idempotent_witness :
  let s1 := (_login_baostock Samples.tushare_empty blank).2 in
  acquire Samples.tushare_empty 3 s1 = (Ok [true; true; true], s1) /\
  login_count (calls (acquire Samples.tushare_empty 3 s1).2)
  <= login_count (calls blank) + 1 /\
  (baostock_logged_in blank = true -> s1 = blank).
Proof.
  apply (session_acquisition_idempotent Samples.tushare_empty blank
           (_login_baostock Samples.tushare_empty blank).2 3).
  reflexivity.
Defined.

(** ** The adjustment mode and the TuShare request *)

Section Adjust.

Variable w : world.

#[local] Instance same_tushare_refl : Reflexive same_tushare_requests.
Proof. intros s. reflexivity. Qed.

#[local] Instance same_tushare_trans : Transitive same_tushare_requests.
Proof. intros a b c H1 H2. unfold same_tushare_requests in *. congruence. Qed.

Abbreviation keeps_ts := (keeps same_tushare_requests).

Lemma keeps_logger l msg : keeps_ts (logger l msg).
Proof. intros s. reflexivity. Qed.

Lemma keeps_get_state : keeps_ts get_state.
Proof. intros s. reflexivity. Qed.

Lemma keeps_import name : keeps_ts (import w name).
Proof. intros s. reflexivity. Qed.

Lemma keeps_set_flag b : keeps_ts (set_baostock_logged_in b).
Proof. intros s. reflexivity. Qed.

Lemma keeps_vendor {A} c (answer : list call -> outcome A) :
  is_tushare_call c = false -> keeps_ts (vendor c answer).
Proof.
  intros H s. unfold same_tushare_requests, tushare_requests. simpl.
  rewrite filter_app, filter_cons, decide_False by congruence.
  simpl. apply app_nil_r.
Qed.

Ltac keeps_step :=
  first
    [ apply keeps_logger | apply keeps_get_state | apply keeps_import
    | apply keeps_set_flag | apply keeps_vendor; reflexivity
    | apply keeps_ret; tc_solve | apply keeps_lift; tc_solve
    | apply keeps_bind; [tc_solve | | intros]
    | apply keeps_try_except; [tc_solve | | intros]
    | match goal with
      | |- keeps _ (match ?x with _ => _ end) => destruct x
      end ].

Lemma keeps_login_baostock : keeps_ts (_login_baostock w).
Proof. unfold _login_baostock. repeat keeps_step. Qed.

Lemma keeps_daily_baostock c sd ed adj : keeps_ts (daily_baostock w c sd ed adj).
Proof.
  unfold daily_baostock.
  apply keeps_bind; [tc_solve | apply keeps_login_baostock | intros].
  repeat keeps_step.
Qed.

Lemma keeps_daily_akshare c sd ed adj : keeps_ts (daily_akshare w c sd ed adj).
Proof. unfold daily_akshare. repeat keeps_step. Qed.

(** What follows the TuShare block keeps the TuShare requests, and never
    answers under the name TuShare. *)
Lemma keeps_daily_after_tushare c sd ed sd' ed' adj :
  keeps_ts (daily_after_tushare w c sd ed sd' ed' adj).
Proof.
  unfold daily_after_tushare.
  apply keeps_bind; [tc_solve | apply keeps_daily_baostock | intros].
  destruct a; [apply keeps_ret; tc_solve |].
  apply keeps_bind; [tc_solve | apply keeps_daily_akshare | intros].
  repeat keeps_step.
Qed.

Lemma daily_after_tushare_returns c sd ed sd' ed' adj :
  returns (daily_after_tushare w c sd ed sd' ed' adj)
    (well_formed_result ["Baostock"; "AkShare"]).
Proof.
  unfold daily_after_tushare.
  eapply returns_bind; [apply daily_baostock_returns |].
  intros r [-> | [d ->]];
    [| apply returns_ret; left; exists d; simpl; auto].
  eapply returns_bind; [apply daily_akshare_returns |].
  intros r [-> | [d ->]];
    [| apply returns_ret; left; exists d; simpl; auto].
  apply all_failed_returns.
Qed.

Lemma get_daily_data_unfold c sd ed adj :
  get_daily_data w c sd ed adj
  = (let sd0 := PyStr.remove PyStr.hyphen sd in
     let ed0 := PyStr.remove PyStr.hyphen ed in
     logger INFO ("📊 获取 " +:+ c +:+ " 日线数据: " +:+ hyphenate sd0
                  +:+ " ~ " +:+ hyphenate ed0) ;;;
     r <~ daily_tushare w c sd0 ed0 ;;
     match r with
     | Some out => ret out
     | None => daily_after_tushare w c sd0 ed0 (hyphenate sd0) (hyphenate ed0) adj
     end).
Proof. reflexivity. Qed.

Lemma daily_tushare_calls c sd ed s :
  calls (daily_tushare w c sd ed s).2
  = (calls s ++ if tushare_api s
                then [ts_daily (_convert_to_tushare_code c) sd ed TS_FIELDS]
                else [])%list.
Proof.
  unfold daily_tushare, bind, get_state, try_except, logger, vendor. simpl.
  destruct (tushare_api s); simpl; [| rewrite app_nil_r; reflexivity].
  destruct (w_ts_daily w (calls s) _ sd ed TS_FIELDS) as [[df |] | e]; simpl;
    try reflexivity.
  destruct (df_empty df); reflexivity.
Qed.

(** C10: two calls of [get_daily_data] that differ in [adjust] alone send
    the same requests to TuShare (the one request of the call carries the
    code and the two dates and nothing of [adjust]), and when one of them
    returns under the name TuShare the other returns the same value and
    leaves the same state. *)
Theorem tushare_branch_ignores_adjust
    s stock_code start_date end_date adjust1 adjust2 :
  let run adjust := get_daily_data w stock_code start_date end_date adjust s in
  tushare_requests (calls (run adjust1).2)
  = tushare_requests (calls (run adjust2).2) /\
  tushare_requests (calls (run adjust1).2)
  = (tushare_requests (calls s) ++
     if tushare_api s
     then [ts_daily (_convert_to_tushare_code stock_code)
             (PyStr.remove PyStr.hyphen start_date)
             (PyStr.remove PyStr.hyphen end_date) TS_FIELDS]
     else [])%list /\
  (forall df, (run adjust1).1 = Ok (Some df, "TuShare") ->
              run adjust2 = run adjust1).
Proof.
  intros run.
  assert (forall adj,
             tushare_requests (calls (run adj).2)
             = (tushare_requests (calls s) ++
                if tushare_api s
                then [ts_daily (_convert_to_tushare_code stock_code)
                        (PyStr.remove PyStr.hyphen start_date)
                        (PyStr.remove PyStr.hyphen end_date) TS_FIELDS]
                else [])%list) as Hreq.
  { intros adj. unfold run. rewrite get_daily_data_unfold. cbv zeta.
    rewrite run_logger.
    match goal with |- context [bind (daily_tushare _ _ ?a ?b) _ ?s0] =>
      pose proof (daily_tushare_calls stock_code a b s0) as Hc;
      unfold bind; destruct (daily_tushare w stock_code a b s0)
        as [[[out |] | e] s1]
    end; simpl in Hc |- *.
    - rewrite Hc. unfold tushare_requests. rewrite filter_app.
      destruct (tushare_api s); reflexivity.
    - match goal with |- context [daily_after_tushare ?w ?c ?a ?b ?a' ?b' ?j ?s] =>
        rewrite (keeps_daily_after_tushare c a b a' b' j s)
      end.
      rewrite Hc. unfold tushare_requests. rewrite filter_app.
      destruct (tushare_api s); reflexivity.
    - rewrite Hc. unfold tushare_requests. rewrite filter_app.
      destruct (tushare_api s); reflexivity. }
  split; [rewrite !Hreq; reflexivity |]. split; [apply Hreq |].
  intros df. unfold run. rewrite !get_daily_data_unfold. cbv zeta.
  rewrite !run_logger.
  match goal with |- context [bind (daily_tushare _ _ ?a ?b) _ ?s0] =>
    unfold bind; destruct (daily_tushare w stock_code a b s0)
      as [[[out |] | e] s1]
  end; try reflexivity.
  match goal with |- context [daily_after_tushare ?w ?c ?a ?b ?a' ?b' adjust1 ?s] =>
    destruct (daily_after_tushare_returns c a b a' b' adjust1 s)
      as (r & s2 & -> & Hr)
  end.
  simpl. intros H. inversion H. subst r.
  destruct Hr as [(d & _ & Hin) | Hr]; [| discriminate Hr].
  simpl in Hin. destruct Hin as [Hin | [Hin | []]]; discriminate Hin.
Qed.

End Adjust.

Lemma tushare_branch_ignores_adjust_witness :
  get_daily_data Samples.tushare_serves "600519" "2024-01-01" "2024-01-05" "hfq"
    Samples.configured
  = get_daily_data Samples.tushare_serves "600519" "2024-01-01" "2024-01-05" "qfq"
      Samples.configured.
Proof.
  apply (tushare_branch_ignores_adjust Samples.tushare_serves Samples.configured
           "600519" "2024-01-01" "2024-01-05" "qfq" "hfq")
    with (df := df_rename TS_RENAME Samples.frame3).
  reflexivity.
Defined.

(** ** Total failure and partial success *)

(** With every provider raising, the run returns the fixed pair and its
    warnings are the three reasons, in priority order. *)
Lemma down_run (reason : string) :
  exists s',
    get_daily_data (Samples.down reason) "600519" "20240101" "20240105" "qfq"
      Samples.configured = (Ok (None, ALL_FAILED), s') /\
    warnings (new_logs Samples.configured s')
    = ["⚠️ TuShare 失败: tushare: read timed out";
       "⚠️ Baostock 登录异常: baostock: connection refused";
       "⚠️ AkShare 失败: " +:+ reason].
Proof.
  exists (get_daily_data (Samples.down reason) "600519" "20240101" "20240105"
            "qfq" Samples.configured).2.
  split; vm_compute; reflexivity.
Qed.

(** C2 does not hold as stated: no reading of the returned value gives
    the failure reasons.  With all three providers raising, a timeout at
    AkShare and a ban at AkShare leave different warnings in the log and the
    same returned pair. *)
Lemma returned_failure_carries_no_reasons : ~ failure_carries_reasons.
Proof.
  intros [decode H].
  destruct (down_run "akshare: read timed out") as (s1 & E1 & W1).
  destruct (down_run "akshare: banned") as (s2 & E2 & W2).
  pose proof (H _ _ _ _ _ _ _ _ E1 eq_refl) as H1.
  pose proof (H _ _ _ _ _ _ _ _ E2 eq_refl) as H2.
  rewrite W1 in H1. rewrite W2, H1 in H2.
  vm_compute in H2. discriminate H2.
Qed.

(** C4 (a partial dict is returned as success): when Baostock answers the
    profit query with error code 0 and the balance and cash-flow queries
    with an error code, [get_financial_data] returns, under the name
    Baostock, a dict that holds the profit statement alone. *)
Theorem profit_alone_returned_as_success :
  exists result,
    (get_financial_data Samples.profit_only "600519" 2024 3 blank).1
    = Ok (Some result, "Baostock") /\
    result = {["profit" := Samples.profit_frame]} /\
    result !! "balance" = None /\
    result !! "cashflow" = None.
Proof.
  exists {["profit" := Samples.profit_frame]}.
  split; [vm_compute; reflexivity |].
  split; [reflexivity |].
  split; vm_compute; reflexivity.
Qed.

(** ** Dates *)

Section Dates.

Implicit Types s p d : string.

Local Arguments String.append !_ _.
Local Arguments PyStr.remove _ !_.

Lemma append_assoc s p d : (s +:+ p) +:+ d = s +:+ (p +:+ d).
Proof. induction s as [| a s IH]; simpl; [reflexivity | f_equal; exact IH]. Qed.

Lemma remove_app c s p :
  PyStr.remove c (s +:+ p) = PyStr.remove c s +:+ PyStr.remove c p.
Proof.
  induction s as [| a s IH]; simpl; [reflexivity |].
  destruct (Ascii.eqb a c); simpl; rewrite IH; reflexivity.
Qed.

Lemma contains_remove c s : PyStr.contains c (PyStr.remove c s) = false.
Proof.
  induction s as [| a s IH]; simpl; [reflexivity |].
  destruct (Ascii.eqb a c) eqn:E; simpl; [exact IH | rewrite E; exact IH].
Qed.

Lemma remove_absent c s : PyStr.contains c s = false -> PyStr.remove c s = s.
Proof.
  induction s as [| a s IH]; simpl; [reflexivity |].
  destruct (Ascii.eqb a c); [discriminate |].
  intros H. rewrite (IH H). reflexivity.
Qed.

Lemma take_drop n s : PyStr.take n s +:+ PyStr.drop n s = s.
Proof.
  revert s. induction n as [| n IH]; intros [| a s]; simpl; try reflexivity.
  rewrite IH. reflexivity.
Qed.

Lemma drop_drop n m s : PyStr.drop n (PyStr.drop m s) = PyStr.drop (m + n) s.
Proof.
  revert s. induction m as [| m IH]; intros s; simpl; [reflexivity |].
  destruct s as [| a s]; [destruct n; reflexivity | apply IH].
Qed.

Lemma contains_take c n s :
  PyStr.contains c s = false -> PyStr.contains c (PyStr.take n s) = false.
Proof.
  revert s. induction n as [| n IH]; intros [| a s]; simpl; try reflexivity.
  destruct (Ascii.eqb a c); [discriminate | apply IH].
Qed.

Lemma contains_drop c n s :
  PyStr.contains c s = false -> PyStr.contains c (PyStr.drop n s) = false.
Proof.
  revert s. induction n as [| n IH]; intros [| a s]; simpl; try reflexivity;
    try (intros H; exact H).
  destruct (Ascii.eqb a c); [discriminate | apply IH].
Qed.

Lemma remove_hyphenate_absent d :
  PyStr.contains PyStr.hyphen d = false ->
  PyStr.remove PyStr.hyphen (hyphenate d) = d.
Proof.
  intros H. unfold hyphenate, PyStr.slice.
  rewrite !remove_app.
  rewrite (remove_absent _ (PyStr.take 4 d)) by (apply contains_take, H).
  rewrite (remove_absent _ (PyStr.take (6 - 4) (PyStr.drop 4 d)))
    by (apply contains_take, contains_drop, H).
  rewrite (remove_absent _ (PyStr.drop 6 d)) by (apply contains_drop, H).
  change (PyStr.remove PyStr.hyphen "-") with "".
  change (PyStr.drop 6 d) with (PyStr.drop (4 + 2) d). rewrite <- drop_drop.
  change (6 - 4) with 2.
  change ("" +:+ PyStr.drop 2 (PyStr.drop 4 d)) with (PyStr.drop 2 (PyStr.drop 4 d)).
  change ("" +:+ PyStr.take 2 (PyStr.drop 4 d) +:+ PyStr.drop 2 (PyStr.drop 4 d))
    with (PyStr.take 2 (PyStr.drop 4 d) +:+ PyStr.drop 2 (PyStr.drop 4 d)).
  rewrite take_drop, take_drop. reflexivity.
Qed.

(** X1: the two forms of a date that [get_daily_data] sends out denote the
    same date: removing the hyphens from the hyphenated form (sent to
    Baostock) gives back the hyphen-free form (sent to TuShare and AkShare),
    for every input string. *)
Theorem hyphenate_round_trip d :
  PyStr.remove PyStr.hyphen (hyphenate (PyStr.remove PyStr.hyphen d))
  = PyStr.remove PyStr.hyphen d.
Proof. apply remove_hyphenate_absent, contains_remove. Qed.

(** X2: [get_daily_data] reads its dates up to hyphens: called again with
    the hyphenated dates it computed, it makes the same run (same value,
    same calls, same log) as with the dates it was given, so YYYYMMDD and
    YYYY-MM-DD inputs are interchangeable. *)
Theorem get_daily_data_date_forms (w : world) stock_code start_date end_date adjust
    (st : state) :
  get_daily_data w stock_code
    (hyphenate (PyStr.remove PyStr.hyphen start_date))
    (hyphenate (PyStr.remove PyStr.hyphen end_date)) adjust st
  = get_daily_data w stock_code start_date end_date adjust st.
Proof.
  unfold get_daily_data. rewrite !hyphenate_round_trip. reflexivity.
Qed.

Lemma length_take_drop n s :
  n <= String.length s ->
  String.length (PyStr.take n s) = n /\
  String.length (PyStr.drop n s) = String.length s - n.
Proof.
  revert s. induction n as [| n IH]; intros [| a s]; simpl; intros H;
    try (split; lia).
  destruct (IH s) as [H1 H2]; [lia |]. rewrite H1, H2. split; reflexivity.
Qed.

Lemma take_all n s : String.length s <= n -> PyStr.take n s = s.
Proof.
  revert s. induction n as [| n IH]; intros [| a s]; simpl; intros H;
    try reflexivity; try lia.
  rewrite IH by lia. reflexivity.
Qed.

(** On a string of eight characters the cut of [normalize_date] and the cut
    of [get_daily_data] are the same. *)
Lemma normalize_cut_is_hyphenate d :
  String.length d = 8 ->
  PyStr.take 4 d +:+ "-" +:+ PyStr.slice 4 6 d +:+ "-" +:+ PyStr.slice 6 8 d
  = hyphenate d.
Proof.
  intros H. unfold hyphenate, PyStr.slice.
  rewrite (take_all (8 - 6) (PyStr.drop 6 d)); [reflexivity |].
  destruct (length_take_drop 6 d) as [_ ->]; lia.
Qed.

Lemma normalize_date_eight d :
  String.length (PyStr.remove PyStr.hyphen d) = 8 ->
  normalize_date d = Some (hyphenate (PyStr.remove PyStr.hyphen d)).
Proof.
  intros H. unfold normalize_date.
  destruct (String.eqb d "") eqn:E.
  - apply String.eqb_eq in E. subst d. discriminate H.
  - rewrite H. simpl Nat.eqb. cbv iota.
    rewrite (normalize_cut_is_hyphenate _ H). reflexivity.
Qed.

(** X3: on a date whose hyphen-free form has eight characters, the history
    tool's [normalize_date] gives exactly the hyphenated date that
    [get_daily_data] computes for Baostock; on the empty string it gives
    None. *)
Theorem normalize_date_agrees_with_fallback d :
  String.length (PyStr.remove PyStr.hyphen d) = 8 ->
  normalize_date d = Some (hyphenate (PyStr.remove PyStr.hyphen d)) /\
  normalize_date "" = None.
Proof.
  intros H. split; [apply normalize_date_eight, H | reflexivity].
Qed.

Lemma normalize_date_agrees_with_fallback_witness :
  normalize_date "20240105" = Some (hyphenate (PyStr.remove PyStr.hyphen "20240105")) /\
  normalize_date "" = None.
Proof. apply (normalize_date_agrees_with_fallback "20240105"). reflexivity. Defined.

Lemma length_append s p :
  String.length (s +:+ p) = String.length s + String.length p.
Proof. induction s as [| a s IH]; simpl; [reflexivity | f_equal; exact IH]. Qed.

(** X4: [normalize_date] is idempotent on everything it returns except the
    empty string: a returned non-empty date normalises to itself (and a
    string of hyphens alone is returned as the empty string, which
    normalises to None). *)
Theorem normalize_date_idempotent d r :
  normalize_date d = Some r ->
  r <> "" ->
  normalize_date r = Some r.
Proof.
  unfold normalize_date at 1.
  destruct (String.eqb d ""); [discriminate |].
  destruct (Nat.eqb (String.length (PyStr.remove PyStr.hyphen d)) 8) eqn:E.
  - apply Nat.eqb_eq in E. rewrite (normalize_cut_is_hyphenate _ E).
    intros H _. inversion H as [Hr].
    rewrite (normalize_date_eight (hyphenate (PyStr.remove PyStr.hyphen d)))
      by (rewrite hyphenate_round_trip; exact E).
    rewrite hyphenate_round_trip. reflexivity.
  - intros H Hne. inversion H as [Hr]. subst r.
    unfold normalize_date.
    apply String.eqb_neq in Hne. rewrite Hne.
    rewrite (remove_absent _ _ (contains_remove _ d)), E. reflexivity.
Qed.

End Dates.

Lemma normalize_date_idempotent_witness :
  normalize_date "2024-01-05" = Some "2024-01-05".
Proof.
  apply (normalize_date_idempotent "20240105" "2024-01-05").
  - reflexivity.
  - discriminate.
Defined.

(** ** More on the code conversions *)

Section ConversionLaws.

Implicit Types s p : string.

Lemma lower_tushare_suffix (m : market) :
  PyStr.lower (tushare_suffix m) = baostock_prefix m.
Proof. destruct m; reflexivity. Qed.

Lemma tushare_suffix_no_dot (m : market) :
  PyStr.contains PyStr.dot (tushare_suffix m) = false.
Proof. destruct m; reflexivity. Qed.

Lemma baostock_prefix_no_dot (m : market) :
  PyStr.contains PyStr.dot (baostock_prefix m) = false.
Proof. destruct m; reflexivity. Qed.

(** X5: the two conversions compose: for a code without a dot, converting
    its TuShare form to the Baostock form gives the same as converting the
    code directly, so the dotted branch of [_convert_to_baostock_code] reads
    what [_convert_to_tushare_code] writes. *)
Theorem baostock_of_tushare_form s :
  PyStr.contains PyStr.dot s = false ->
  _convert_to_baostock_code (_convert_to_tushare_code s)
  = _convert_to_baostock_code s.
Proof.
  intros H.
  rewrite (convert_to_baostock_code_market _ H).
  destruct (convert_to_baostock_code_dotted (_convert_to_tushare_code s))
    as (p0 & p1 & rest & Hsplit & ->);
    [apply convert_to_tushare_code_has_dot |].
  rewrite (convert_to_tushare_code_market _ H) in Hsplit.
  change (s +:+ "." +:+ tushare_suffix (infer_market s))
    with (s +:+ String PyStr.dot (tushare_suffix (infer_market s))) in Hsplit.
  rewrite (split_app_sep _ _ _ H) in Hsplit.
  rewrite (split_no_sep _ _ (tushare_suffix_no_dot _)) in Hsplit.
  inversion Hsplit. rewrite lower_tushare_suffix. reflexivity.
Qed.

Lemma baostock_of_tushare_form_witness :
  _convert_to_baostock_code (_convert_to_tushare_code "000001")
  = _convert_to_baostock_code "000001".
Proof. apply (baostock_of_tushare_form "000001"). reflexivity. Defined.

(** X6: on codes without a dot both conversions are injective: two such
    codes with the same TuShare form, or the same Baostock form, are the
    same code. *)
Theorem conversions_injective s p :
  PyStr.contains PyStr.dot s = false ->
  PyStr.contains PyStr.dot p = false ->
  (_convert_to_tushare_code s = _convert_to_tushare_code p -> s = p) /\
  (_convert_to_baostock_code s = _convert_to_baostock_code p -> s = p).
Proof.
  intros Hs Hp. split.
  - rewrite (convert_to_tushare_code_market _ Hs),
      (convert_to_tushare_code_market _ Hp).
    intros E. apply (f_equal (PyStr.split PyStr.dot)) in E.
    change (s +:+ "." +:+ tushare_suffix (infer_market s))
      with (s +:+ String PyStr.dot (tushare_suffix (infer_market s))) in E.
    change (p +:+ "." +:+ tushare_suffix (infer_market p))
      with (p +:+ String PyStr.dot (tushare_suffix (infer_market p))) in E.
    rewrite (split_app_sep _ _ _ Hs), (split_app_sep _ _ _ Hp) in E.
    inversion E. reflexivity.
  - rewrite (convert_to_baostock_code_market _ Hs),
      (convert_to_baostock_code_market _ Hp).
    intros E. inversion E as [E'].
    apply (f_equal (PyStr.split PyStr.dot)) in E'.
    change (baostock_prefix (infer_market s) +:+ "." +:+ s)
      with (baostock_prefix (infer_market s) +:+ String PyStr.dot s) in E'.
    change (baostock_prefix (infer_market p) +:+ "." +:+ p)
      with (baostock_prefix (infer_market p) +:+ String PyStr.dot p) in E'.
    rewrite (split_app_sep _ _ _ (baostock_prefix_no_dot _)),
      (split_app_sep _ _ _ (baostock_prefix_no_dot _)) in E'.
    rewrite (split_no_sep _ _ Hs), (split_no_sep _ _ Hp) in E'.
    inversion E'. reflexivity.
Qed.

Lemma conversions_injective_witness :
  (_convert_to_tushare_code "600519" = _convert_to_tushare_code "600519"
   -> "600519" = "600519") /\
  (_convert_to_baostock_code "600519" = _convert_to_baostock_code "600519"
   -> "600519" = "600519").
Proof. apply (conversions_injective "600519" "600519"); reflexivity. Defined.

(** X7: the Sina code built in [get_financial_data] carries the exchange of
    the leading-digit rule exactly when the code starts with 6, 0 or 3; for
    every other code (8 or 4, any other character, the empty string) it
    carries a different one. *)
Theorem sina_code_follows_rule_iff s :
  sina_code s = sina_prefix (infer_market s) +:+ s
  <-> (leading s = Some "6"%char \/ leading s = Some "0"%char
       \/ leading s = Some "3"%char).
Proof.
  unfold sina_code. rewrite startswith_leading. unfold infer_market, sina_prefix.
  destruct (leading s) as [a |].
  - destruct a as [[] [] [] [] [] [] [] []]; simpl;
      (split;
       [ intros H; first
           [ left; reflexivity | right; left; reflexivity
           | right; right; reflexivity
           | exfalso; cbv in H; discriminate H ]
       | intros [H | [H | H]]; first [reflexivity | discriminate H] ]).
  - simpl. split.
    + intros H. exfalso. cbv in H. discriminate H.
    + intros [H | [H | H]]; discriminate H.
Qed.

End ConversionLaws.

(** ** The life of the Baostock session *)

Section SessionLife.

Variable w : world.

Lemma release_without_session n s :
  baostock_logged_in s = false -> release w n s = (Ok tt, s).
Proof.
  intros H. induction n as [| n IH]; simpl; [reflexivity |].
  unfold bind at 1. unfold _logout_baostock at 1. unfold bind, get_state.
  simpl. rewrite H. simpl. exact IH.
Qed.

(** X8: releasing is a no-op without a session: when the session flag is
    down, any number of [_logout_baostock] calls return normally, call
    nothing and leave the object as it is. *)
Theorem release_is_noop_without_session n s :
  baostock_logged_in s = false ->
  release w n s = (Ok tt, s) /\ _logout_baostock w s = (Ok tt, s).
Proof.
  intros H. split; [apply release_without_session, H |].
  unfold _logout_baostock, bind, get_state. simpl. rewrite H. reflexivity.
Qed.

(** X9: a logout that raises is swallowed and leaves the session marked
    active: [_logout_baostock] returns normally, logs nothing, the flag
    stays up, and the next [_login_baostock] answers True without calling
    the vendor. *)
Theorem failed_logout_keeps_session s e :
  baostock_logged_in s = true ->
  import_module w (calls s) "baostock" = Ok tt ->
  w_bs_logout w (calls s) = Raise e ->
  exists s',
    _logout_baostock w s = (Ok tt, s') /\
    baostock_logged_in s' = true /\
    logs s' = logs s /\
    calls s' = (calls s ++ [bs_logout])%list /\
    _login_baostock w s' = (Ok true, s').
Proof.
  intros Hf Hi Hl.
  unfold _logout_baostock, bind, get_state, try_except, import, vendor. simpl.
  rewrite Hf. simpl. rewrite Hi, Hl. simpl.
  eexists. split; [reflexivity |]. simpl. repeat split; try assumption.
  apply login_baostock_active. exact Hf.
Qed.

(** X10: acquire then release: from an object without a session, a login
    answered with error code 0 followed by a logout that returns leaves the
    flag down again, after exactly one login call and one logout call. *)
Theorem login_then_logout s msg :
  baostock_logged_in s = false ->
  import_module w (calls s) "baostock" = Ok tt ->
  w_bs_login w (calls s) = Ok (mkLogin "0" msg) ->
  import_module w (calls s ++ [bs_login])%list "baostock" = Ok tt ->
  w_bs_logout w (calls s ++ [bs_login])%list = Ok tt ->
  exists s',
    (_login_baostock w ;;; _logout_baostock w) s = (Ok tt, s') /\
    baostock_logged_in s' = false /\
    tushare_api s' = tushare_api s /\
    calls s' = (calls s ++ [bs_login; bs_logout])%list.
Proof.
  intros Hf Hi Hl Hi2 Ho.
  unfold _login_baostock, _logout_baostock, bind, get_state, try_except,
    import, vendor, set_baostock_logged_in, logger. simpl.
  rewrite Hf. simpl. rewrite Hi, Hl. simpl. rewrite Hi2, Ho. simpl.
  eexists. split; [reflexivity |]. simpl. repeat split.
  rewrite <- app_assoc. reflexivity.
Qed.

Lemma refused_login_step code msg s :
  login_refused w code msg ->
  baostock_logged_in s = false ->
  _login_baostock w s
  = (Ok false,
     mkState (tushare_token s) (tushare_api s) false (calls s ++ [bs_login])
       (logs s ++ [(WARNING, "⚠️ Baostock 登录失败: " +:+ msg)])).
Proof.
  intros [Hne Hw] Hf. destruct (Hw (calls s)) as [Hi Hl].
  apply String.eqb_neq in Hne.
  unfold _login_baostock, bind, get_state, try_except, import, vendor, logger.
  simpl. rewrite Hf. simpl. rewrite Hi, Hl. simpl. rewrite Hne. simpl.
  rewrite Hf. reflexivity.
Qed.

(** X11: a refused login is not remembered: while Baostock answers every
    login with an error code, [n] acquisitions all answer False, make [n]
    login calls and log [n] warnings with the vendor's message; the flag
    stays down. *)
Theorem refused_login_is_retried code msg n s :
  login_refused w code msg ->
  baostock_logged_in s = false ->
  exists s',
    acquire w n s = (Ok (replicate n false), s') /\
    baostock_logged_in s' = false /\
    calls s' = (calls s ++ replicate n bs_login)%list /\
    logs s'
    = (logs s ++ replicate n (WARNING, "⚠️ Baostock 登录失败: " +:+ msg))%list.
Proof.
  intros Hw. revert s. induction n as [| n IH]; intros s Hf.
  - exists s. simpl. rewrite !app_nil_r. auto.
  - simpl acquire.
    rewrite (run_bind _ _ _ _ _ (refused_login_step code msg s Hw Hf)).
    match goal with |- context [bind (acquire w n) _ ?s1] =>
      destruct (IH s1 eq_refl) as (s' & E & Hf' & Hc & Hl)
    end.
    exists s'. rewrite (run_bind _ _ _ _ _ E). simpl in Hc, Hl.
    split; [reflexivity |]. split; [exact Hf' |].
    rewrite Hc, Hl, <- !app_assoc. split; reflexivity.
Qed.

(** X12: [__init__] never raises; it leaves the session flag down and
    stores the token; the TuShare API object is in place afterwards exactly
    when a non-empty token was given and the import, [set_token] and
    [pro_api] all returned. *)
Theorem init_outcome token s :
  exists s',
    __init__ w token s = (Ok tt, s') /\
    baostock_logged_in s' = false /\
    tushare_token s' = token /\
    (tushare_api s' = true <-> tushare_initialises w token (calls s)).
Proof.
  unfold tushare_initialises, __init__, bind, try_except, import, vendor,
    set_tushare_api, logger.
  simpl. destruct token as [t |]; simpl.
  - destruct (String.eqb t "") eqn:Et; simpl.
    + eexists. split; [reflexivity |]. simpl. repeat split; try discriminate.
      intros (t' & Ht & Hne & _). inversion Ht. subst t'.
      apply String.eqb_eq in Et. contradiction.
    + apply String.eqb_neq in Et.
      destruct (import_module w (calls s) "tushare") as [[] | e] eqn:Hi; simpl.
      * destruct (w_ts_set_token w (calls s) t) as [[] | e] eqn:Hs; simpl.
        -- destruct (w_ts_pro_api w (calls s ++ [ts_set_token t])) as [[] | e]
             eqn:Ha; simpl.
           ++ eexists. split; [reflexivity |]. simpl. repeat split.
              exists t. auto.
           ++ eexists. split; [reflexivity |]. simpl.
              repeat split; try discriminate.
              intros (t' & Ht & _ & _ & _ & Ha'). inversion Ht. subst t'.
              congruence.
        -- eexists. split; [reflexivity |]. simpl.
           repeat split; try discriminate.
           intros (t' & Ht & _ & _ & Hs' & _). inversion Ht. subst t'.
           congruence.
      * eexists. split; [reflexivity |]. simpl.
        repeat split; try discriminate.
        intros (t' & Ht & _ & Hi' & _). inversion Ht. subst t'. congruence.
  - eexists. split; [reflexivity |]. simpl. repeat split; try discriminate.
    intros (t' & Ht & _). discriminate Ht.
Qed.

End SessionLife.

Lemma release_is_noop_without_session_witness :
  release Samples.tushare_empty 3 blank = (Ok tt, blank) /\
  _logout_baostock Samples.tushare_empty blank = (Ok tt, blank).
Proof.
  apply (release_is_noop_without_session Samples.tushare_empty 3 blank).
  reflexivity.
Defined.

Lemma failed_logout_keeps_session_witness :
  exists s',
    _logout_baostock MoreSamples.logout_fails MoreSamples.in_session = (Ok tt, s') /\
    baostock_logged_in s' = true /\
    logs s' = logs MoreSamples.in_session /\
    calls s' = [bs_login; bs_logout] /\
    _login_baostock MoreSamples.logout_fails s' = (Ok true, s').
Proof.
  apply (failed_logout_keeps_session MoreSamples.logout_fails
           MoreSamples.in_session "socket closed"); reflexivity.
Defined.

Lemma login_then_logout_witness :
  exists s',
    (_login_baostock Samples.tushare_empty ;;; _logout_baostock Samples.tushare_empty)
      blank = (Ok tt, s') /\
    baostock_logged_in s' = false /\
    tushare_api s' = tushare_api blank /\
    calls s' = [bs_login; bs_logout].
Proof.
  apply (login_then_logout Samples.tushare_empty blank "success"); reflexivity.
Defined.

Lemma refused_login_is_retried_witness :
  exists s',
    acquire Samples.no_session 3 blank = (Ok [false; false; false], s') /\
    baostock_logged_in s' = false /\
    calls s' = [bs_login; bs_login; bs_login] /\
    logs s' = replicate 3 (WARNING, "⚠️ Baostock 登录失败: 用户未登录").
Proof.
  apply (refused_login_is_retried Samples.no_session "10001001" "用户未登录" 3 blank).
  - split; [discriminate | intros h; split; reflexivity].
  - reflexivity.
Defined.

(** ** What a success carries *)

Section Success.

Variable w : world.

Local Set Warnings "-clear-no-such-hyp".

Lemma ensures_bind_with {A B} (m : M A) (k : A -> M B) (Q : A -> Prop)
    (P : B -> Prop) :
  ensures m Q -> (forall a, Q a -> ensures (k a) P) -> ensures (bind m k) P.
Proof.
  intros Hm Hk s b s' E. unfold bind in E.
  destruct (m s) as [[a | e] s1] eqn:E1; [| discriminate].
  exact (Hk a (Hm s a s1 E1) s1 b s' E).
Qed.

Lemma ensures_fall_through {D} (msg : string) (P : option D -> Prop) (e : exn) :
  P None -> ensures (logger WARNING (msg +:+ e) ;;; ret None) P.
Proof. intros H. apply ensures_bind. intros _. apply ensures_ret, H. Qed.

Lemma delivers_none : delivers_rows None.
Proof. intros df name H. discriminate H. Qed.

Lemma delivers_some df name :
  negb (df_empty df) = true -> delivers_rows (Some (Some df, name)).
Proof.
  intros E df' name' H. inversion H. subst.
  destruct (df_empty df'); [discriminate E | reflexivity].
Qed.

Lemma daily_tushare_delivers c sd ed :
  ensures (daily_tushare w c sd ed) delivers_rows.
Proof.
  unfold daily_tushare. apply ensures_bind. intros s.
  destruct (tushare_api s); [| apply ensures_ret, delivers_none].
  apply ensures_try_except;
    [| intros; apply ensures_fall_through, delivers_none].
  apply ensures_bind. intros _. apply ensures_bind.
  intros [df |]; [| apply ensures_ret, delivers_none].
  destruct (negb (df_empty df)) eqn:E; [| apply ensures_ret, delivers_none].
  apply ensures_bind. intros _. apply ensures_ret, delivers_some.
  rewrite df_empty_rename. exact E.
Qed.

Lemma daily_baostock_delivers c sd ed adj :
  ensures (daily_baostock w c sd ed adj) delivers_rows.
Proof.
  unfold daily_baostock. apply ensures_bind. intros logged.
  destruct logged; [| apply ensures_ret, delivers_none].
  apply ensures_try_except;
    [| intros; apply ensures_fall_through, delivers_none].
  do 4 (apply ensures_bind; intros ?).
  destruct (String.eqb _ _); [| apply ensures_ret, delivers_none].
  apply ensures_bind. intros df.
  destruct (negb (df_empty df)) eqn:E; [| apply ensures_ret, delivers_none].
  apply ensures_bind. intros _. apply ensures_ret, delivers_some, E.
Qed.

Lemma daily_akshare_delivers c sd ed adj :
  ensures (daily_akshare w c sd ed adj) delivers_rows.
Proof.
  unfold daily_akshare.
  apply ensures_try_except;
    [| intros; apply ensures_fall_through, delivers_none].
  do 2 (apply ensures_bind; intros ?). apply ensures_bind.
  intros [df |]; [| apply ensures_ret, delivers_none].
  destruct (negb (df_empty df)) eqn:E; [| apply ensures_ret, delivers_none].
  apply ensures_bind. intros _. apply ensures_ret, delivers_some, E.
Qed.

Lemma get_daily_data_delivers c sd ed adj :
  ensures (get_daily_data w c sd ed adj)
    (fun r => forall df, r.1 = Some df -> df_empty df = false).
Proof.
  unfold get_daily_data. apply ensures_bind. intros _.
  eapply ensures_bind_with; [apply daily_tushare_delivers |].
  intros [[d name] |] H1.
  { apply ensures_ret. simpl. intros df ->. exact (H1 df name eq_refl). }
  eapply ensures_bind_with; [apply daily_baostock_delivers |].
  intros [[d name] |] H2.
  { apply ensures_ret. simpl. intros df ->. exact (H2 df name eq_refl). }
  eapply ensures_bind_with; [apply daily_akshare_delivers |].
  intros [[d name] |] H3.
  { apply ensures_ret. simpl. intros df ->. exact (H3 df name eq_refl). }
  apply ensures_bind. intros _. apply ensures_ret. simpl. discriminate.
Qed.

(** X13: data returned by [get_daily_data] is never an empty frame,
    whichever provider it came from: a frame without rows or without columns
    is treated as a failure of that provider. *)
Theorem daily_success_has_rows stock_code start_date end_date adjust s df name s' :
  get_daily_data w stock_code start_date end_date adjust s
  = (Ok (Some df, name), s') ->
  df_empty df = false.
Proof.
  intros E.
  exact (get_daily_data_delivers stock_code start_date end_date adjust s _ s' E
           df eq_refl).
Qed.

Lemma store_statement_keys key rs (result : gmap string DataFrame) :
  ensures (store_statement key rs result)
    (fun r => dom r ⊆ dom result ∪ {[key]}).
Proof.
  unfold store_statement. destruct (String.eqb _ _).
  - apply ensures_bind. intros df. apply ensures_ret.
    rewrite dom_insert_L. set_solver.
  - apply ensures_ret. set_solver.
Qed.

Lemma financial_baostock_keyed c y q :
  ensures (financial_baostock w c y q)
    (fun r => forall out, r = Some out -> well_keyed out /\ out.2 = "Baostock").
Proof.
  unfold financial_baostock. apply ensures_bind. intros logged.
  destruct logged; [| apply ensures_ret; discriminate].
  apply ensures_try_except;
    [| intros; apply ensures_fall_through; discriminate].
  do 6 (apply ensures_bind; intros ?).
  eapply ensures_bind_with; [apply store_statement_keys |]. intros r1 H1.
  eapply ensures_bind_with; [apply store_statement_keys |]. intros r2 H2.
  eapply ensures_bind_with; [apply store_statement_keys |]. intros r3 H3.
  destruct (negb (bool_decide (r3 = ∅))) eqn:E;
    [| apply ensures_ret; discriminate].
  apply ensures_bind. intros _. apply ensures_ret.
  intros out Hout. inversion Hout. subst out. split; [| reflexivity].
  intros d Hd. simpl in Hd. inversion Hd. subst d. split; [| split].
  - intros He. rewrite He in E. rewrite bool_decide_eq_true_2 in E by reflexivity.
    discriminate E.
  - rewrite dom_empty_L in H1. unfold statement_keys. set_solver.
  - simpl. discriminate.
Qed.

Lemma financial_akshare_keyed c :
  ensures (financial_akshare w c)
    (fun r => forall out, r = Some out -> well_keyed out /\ out.2 = "AkShare").
Proof.
  unfold financial_akshare.
  apply ensures_try_except;
    [| intros; apply ensures_fall_through; discriminate].
  do 6 (apply ensures_bind; intros ?). apply ensures_ret.
  intros out Hout. inversion Hout. subst out. split; [| reflexivity].
  intros d Hd. simpl in Hd. inversion Hd. subst d. split; [| split].
  - apply insert_non_empty.
  - rewrite !dom_insert_L, dom_empty_L. unfold statement_keys. set_solver.
  - intros _. rewrite !dom_insert_L, dom_empty_L. unfold statement_keys.
    set_solver.
Qed.

Lemma get_financial_data_keyed c y q :
  ensures (get_financial_data w c y q) well_keyed.
Proof.
  unfold get_financial_data. apply ensures_bind. intros _.
  eapply ensures_bind_with; [apply financial_baostock_keyed |].
  intros [out |] H1; [apply ensures_ret; exact (proj1 (H1 out eq_refl)) |].
  eapply ensures_bind_with; [apply financial_akshare_keyed |].
  intros [out |] H2; [apply ensures_ret; exact (proj1 (H2 out eq_refl)) |].
  apply ensures_bind. intros _. apply ensures_ret. intros d Hd. discriminate Hd.
Qed.

(** X14: a dict returned by [get_financial_data] is never empty and holds
    no key other than profit, balance and cashflow; under the name AkShare
    it holds all three. *)
Theorem financial_success_keys stock_code year quarter s d name s' :
  get_financial_data w stock_code year quarter s = (Ok (Some d, name), s') ->
  d <> ∅ /\ dom d ⊆ statement_keys /\
  (name = "AkShare" -> dom d = statement_keys).
Proof.
  intros E.
  exact (get_financial_data_keyed stock_code year quarter s _ s' E d eq_refl).
Qed.

End Success.

Lemma daily_success_has_rows_witness : df_empty Samples.bs_frame3 = false.
Proof.
  apply (daily_success_has_rows Samples.tushare_empty "600519" "2024-01-01"
           "2024-01-05" "qfq" Samples.configured Samples.bs_frame3 "Baostock"
           (get_daily_data Samples.tushare_empty "600519" "2024-01-01"
              "2024-01-05" "qfq" Samples.configured).2).
  vm_compute. reflexivity.
Defined.

(** ** Which vendor is called *)

#[local] Instance calls_kept_refl (P : call -> bool) : Reflexive (calls_kept P).
Proof. intros s. reflexivity. Qed.

#[local] Instance calls_kept_trans (P : call -> bool) : Transitive (calls_kept P).
Proof. intros a b c H1 H2. unfold calls_kept in *. congruence. Qed.

#[local] Instance session_stays_refl : Reflexive session_stays.
Proof. intros s H. auto. Qed.

#[local] Instance session_stays_trans : Transitive session_stays.
Proof.
  intros a b c H1 H2 Ha. destruct (H1 Ha) as [Hb E1].
  destruct (H2 Hb) as [Hc E2]. split; [exact Hc | congruence].
Qed.

Ltac keeps_struct :=
  first
    [ apply keeps_bind; [tc_solve | | intros]
    | apply keeps_try_except; [tc_solve | | intros]
    | apply keeps_ret; tc_solve
    | apply keeps_lift; tc_solve
    | match goal with
      | |- keeps _ (store_statement _ _ _) => unfold store_statement
      | |- keeps _ (match ?x with _ => _ end) => destruct x
      end ].

Section CallsKept.

Variable w : world.
Variable P : call -> bool.

Lemma kept_logger l msg : keeps (calls_kept P) (logger l msg).
Proof. intros s. reflexivity. Qed.

Lemma kept_get_state : keeps (calls_kept P) get_state.
Proof. intros s. reflexivity. Qed.

Lemma kept_import name : keeps (calls_kept P) (import w name).
Proof. intros s. reflexivity. Qed.

Lemma kept_set_flag b : keeps (calls_kept P) (set_baostock_logged_in b).
Proof. intros s. reflexivity. Qed.

Lemma kept_vendor {A} c (answer : list call -> outcome A) :
  P c = false -> keeps (calls_kept P) (vendor c answer).
Proof.
  intros H s. unfold calls_kept. simpl.
  rewrite filter_app, filter_cons, decide_False by congruence.
  simpl. apply app_nil_r.
Qed.

End CallsKept.

Ltac kept_step w :=
  first
    [ keeps_struct
    | apply kept_logger | apply kept_get_state | apply (kept_import w)
    | apply kept_set_flag | apply kept_vendor; reflexivity ].

Section FirstSuccess.

Variable w : world.

Lemma akshare_kept_login : keeps (calls_kept is_akshare_call) (_login_baostock w).
Proof. unfold _login_baostock. repeat kept_step w. Qed.

Lemma akshare_kept_daily_tushare c sd ed :
  keeps (calls_kept is_akshare_call) (daily_tushare w c sd ed).
Proof. unfold daily_tushare. repeat kept_step w. Qed.

Lemma akshare_kept_daily_baostock c sd ed adj :
  keeps (calls_kept is_akshare_call) (daily_baostock w c sd ed adj).
Proof.
  unfold daily_baostock.
  apply keeps_bind; [tc_solve | apply akshare_kept_login | intros].
  repeat kept_step w.
Qed.

Lemma akshare_kept_financial_baostock c y q :
  keeps (calls_kept is_akshare_call) (financial_baostock w c y q).
Proof.
  unfold financial_baostock.
  apply keeps_bind; [tc_solve | apply akshare_kept_login | intros].
  repeat kept_step w.
Qed.

(** X15: first success wins at every rank: when [get_daily_data] or
    [get_financial_data] returns data under a name other than AkShare, the
    run has made no call to AkShare. *)
Theorem akshare_called_only_as_last_resort s :
  (forall stock_code start_date end_date adjust df name s',
      get_daily_data w stock_code start_date end_date adjust s
      = (Ok (Some df, name), s') ->
      name <> "AkShare" ->
      akshare_calls (calls s') = akshare_calls (calls s)) /\
  (forall stock_code year quarter d name s',
      get_financial_data w stock_code year quarter s = (Ok (Some d, name), s') ->
      name <> "AkShare" ->
      akshare_calls (calls s') = akshare_calls (calls s)).
Proof.
  split.
  - intros c sd ed adj df name s' E Hname.
    unfold get_daily_data in E. rewrite run_logger in E.
    unfold bind in E.
    match type of E with context [daily_tushare w c ?a ?b ?s0] =>
      pose proof (akshare_kept_daily_tushare c a b s0) as K1;
      destruct (daily_tushare w c a b s0) as [[[out |] | e] s1]
    end; simpl in K1; [inversion E; subst; exact K1 | | discriminate E].
    match type of E with context [daily_baostock w c ?a ?b adj s1] =>
      pose proof (akshare_kept_daily_baostock c a b adj s1) as K2;
      destruct (daily_baostock w c a b adj s1) as [[[out |] | e] s2]
    end; simpl in K2;
      [inversion E; subst; unfold calls_kept, akshare_calls in *; simpl in *;
       congruence | | discriminate E].
    match type of E with context [daily_akshare w c ?a ?b adj s2] =>
      destruct (daily_akshare_returns w c a b adj s2) as (r & s3 & E3 & Hr);
      rewrite E3 in E
    end.
    destruct Hr as [-> | [d0 ->]]; inversion E. congruence.
  - intros c y q d name s' E Hname.
    unfold get_financial_data in E. rewrite run_logger in E.
    unfold bind in E.
    match type of E with context [financial_baostock w c y q ?s0] =>
      pose proof (akshare_kept_financial_baostock c y q s0) as K1;
      destruct (financial_baostock w c y q s0) as [[[out |] | e] s1]
    end; simpl in K1; [inversion E; subst; exact K1 | | discriminate E].
    match type of E with context [financial_akshare w c s1] =>
      destruct (financial_akshare_returns w c s1) as (r & s3 & E3 & Hr);
      rewrite E3 in E
    end.
    destruct Hr as [-> | [d0 ->]]; inversion E. congruence.
Qed.

End FirstSuccess.

(** ** The session during the public methods *)

#[local] Instance no_query_refl : Reflexive no_query_without_session.
Proof. intros s H. auto. Qed.

#[local] Instance no_query_trans : Transitive no_query_without_session.
Proof.
  intros a b c H1 H2 Hc. destruct (H2 Hc) as [Hb E2].
  destruct (H1 Hb) as [Ha E1]. split; [exact Ha | congruence].
Qed.

Section SessionInvariants.

Variable w : world.

Lemma login_count_snoc cs c :
  is_login c = false -> login_count (cs ++ [c]) = login_count cs.
Proof.
  intros H. unfold login_count.
  rewrite filter_app, filter_cons, decide_False by congruence.
  simpl. rewrite app_nil_r. reflexivity.
Qed.

Lemma bs_queries_snoc cs c :
  is_bs_query c = false -> bs_queries (cs ++ [c]) = bs_queries cs.
Proof.
  intros H. unfold bs_queries.
  rewrite filter_app, filter_cons, decide_False by congruence.
  simpl. rewrite app_nil_r. reflexivity.
Qed.

(** The primitive steps under [session_stays]. *)
Lemma stays_logger l msg : keeps session_stays (logger l msg).
Proof. intros s H. simpl. auto. Qed.

Lemma stays_get_state : keeps session_stays get_state.
Proof. intros s H. simpl. auto. Qed.

Lemma stays_import name : keeps session_stays (import w name).
Proof. intros s H. simpl. auto. Qed.

Lemma stays_set_flag : keeps session_stays (set_baostock_logged_in true).
Proof. intros s H. simpl. auto. Qed.

Lemma stays_vendor {A} c (answer : list call -> outcome A) :
  is_login c = false -> keeps session_stays (vendor c answer).
Proof.
  intros Hc s H. simpl. split; [exact H | apply login_count_snoc, Hc].
Qed.

Lemma stays_login : keeps session_stays (_login_baostock w).
Proof.
  intros s H. rewrite (login_baostock_active w s H). simpl. auto.
Qed.

Ltac stays_step :=
  first
    [ apply stays_login
    | keeps_struct
    | apply stays_logger | apply stays_get_state | apply stays_import
    | apply stays_set_flag
    | apply stays_vendor; reflexivity ].

Lemma stays_get_daily_data c sd ed adj :
  keeps session_stays (get_daily_data w c sd ed adj).
Proof.
  unfold get_daily_data, daily_tushare, daily_baostock, daily_akshare.
  repeat stays_step.
Qed.

Lemma stays_get_financial_data c y q :
  keeps session_stays (get_financial_data w c y q).
Proof.
  unfold get_financial_data, financial_baostock, financial_akshare.
  repeat stays_step.
Qed.

(** X16: the public methods never drop the session and never log in
    twice: called with an active session, [get_daily_data] and
    [get_financial_data] leave it active and make no login call. *)
Theorem active_session_is_reused s :
  baostock_logged_in s = true ->
  (forall stock_code start_date end_date adjust,
      let s' := (get_daily_data w stock_code start_date end_date adjust s).2 in
      baostock_logged_in s' = true /\
      login_count (calls s') = login_count (calls s)) /\
  (forall stock_code year quarter,
      let s' := (get_financial_data w stock_code year quarter s).2 in
      baostock_logged_in s' = true /\
      login_count (calls s') = login_count (calls s)).
Proof.
  intros H. split; intros.
  - exact (stays_get_daily_data stock_code start_date end_date adjust s H).
  - exact (stays_get_financial_data stock_code year quarter s H).
Qed.

(** The primitive steps under [no_query_without_session]. *)
Lemma nq_logger l msg : keeps no_query_without_session (logger l msg).
Proof. intros s H. simpl in *. auto. Qed.

Lemma nq_get_state : keeps no_query_without_session get_state.
Proof. intros s H. simpl in *. auto. Qed.

Lemma nq_import name : keeps no_query_without_session (import w name).
Proof. intros s H. simpl in *. auto. Qed.

Lemma nq_vendor {A} c (answer : list call -> outcome A) :
  is_bs_query c = false -> keeps no_query_without_session (vendor c answer).
Proof.
  intros Hc s H. simpl in *. split; [exact H | apply bs_queries_snoc, Hc].
Qed.

Lemma login_false s s1 :
  _login_baostock w s = (Ok false, s1) ->
  baostock_logged_in s = false /\
  baostock_logged_in s1 = false /\
  bs_queries (calls s1) = bs_queries (calls s).
Proof.
  unfold _login_baostock, bind, get_state. simpl.
  destruct (baostock_logged_in s) eqn:E; [intros H; inversion H |].
  unfold try_except, bind, import, vendor, logger. simpl.
  destruct (import_module w (calls s) "baostock"); simpl.
  - destruct (w_bs_login w (calls s)) as [lg | e]; simpl.
    + destruct (String.eqb (lg_error_code lg) "0"); simpl;
        intros H; inversion H; simpl.
      rewrite E. repeat split. apply bs_queries_snoc. reflexivity.
    + intros H. inversion H. simpl. rewrite E. repeat split.
      apply bs_queries_snoc. reflexivity.
  - intros H. inversion H. simpl. rewrite E. repeat split.
Qed.

(** A block guarded by the login keeps [no_query_without_session]: after a
    refused login nothing follows, after a successful one the session stays
    active to the end. *)
Lemma nq_guarded {A} (body : M (option A)) :
  keeps session_stays body ->
  keeps no_query_without_session
    (logged <~ _login_baostock w ;; if logged : bool then body else ret None).
Proof.
  intros Hbody s. unfold bind.
  destruct (login_baostock_returns w s) as (logged & s1 & E & _).
  rewrite E. destruct logged.
  - destruct (login_baostock_true w s s1 E) as [Hf _].
    intros Hend. destruct (Hbody s1 Hf) as [Hf' _]. congruence.
  - simpl. intros _. destruct (login_false s s1 E) as (H0 & _ & Hq). auto.
Qed.

Lemma nq_daily_baostock c sd ed adj :
  keeps no_query_without_session (daily_baostock w c sd ed adj).
Proof. unfold daily_baostock. apply nq_guarded. repeat stays_step. Qed.

Lemma nq_financial_baostock c y q :
  keeps no_query_without_session (financial_baostock w c y q).
Proof. unfold financial_baostock. apply nq_guarded. repeat stays_step. Qed.

Ltac nq_step :=
  first
    [ apply nq_daily_baostock | apply nq_financial_baostock
    | keeps_struct
    | apply nq_logger | apply nq_get_state | apply nq_import
    | apply nq_vendor; reflexivity ].

Lemma nq_get_daily_data c sd ed adj :
  keeps no_query_without_session (get_daily_data w c sd ed adj).
Proof.
  unfold get_daily_data, daily_tushare, daily_akshare. repeat nq_step.
Qed.

Lemma nq_get_financial_data c y q :
  keeps no_query_without_session (get_financial_data w c y q).
Proof. unfold get_financial_data, financial_akshare. repeat nq_step. Qed.

(** X17: no query without a session: when a run of [get_daily_data] or
    [get_financial_data] ends with the session flag down, it has sent no
    query to Baostock (the login was refused or raised, and the Baostock
    block was skipped). *)
Theorem no_baostock_query_without_session s :
  (forall stock_code start_date end_date adjust,
      let s' := (get_daily_data w stock_code start_date end_date adjust s).2 in
      baostock_logged_in s' = false ->
      bs_queries (calls s') = bs_queries (calls s)) /\
  (forall stock_code year quarter,
      let s' := (get_financial_data w stock_code year quarter s).2 in
      baostock_logged_in s' = false ->
      bs_queries (calls s') = bs_queries (calls s)).
Proof.
  split; intros; subst s'.
  - exact (proj2 (nq_get_daily_data stock_code start_date end_date adjust s H)).
  - exact (proj2 (nq_get_financial_data stock_code year quarter s H)).
Qed.

End SessionInvariants.

(** ** Without a token, and the financial chain *)

Section Chains.

Variable w : world.

Lemma tushare_requests_of_run c sd ed adj s :
  tushare_requests (calls (get_daily_data w c sd ed adj s).2)
  = (tushare_requests (calls s) ++
     if tushare_api s
     then [ts_daily (_convert_to_tushare_code c) (PyStr.remove PyStr.hyphen sd)
             (PyStr.remove PyStr.hyphen ed) TS_FIELDS]
     else [])%list.
Proof.
  rewrite get_daily_data_unfold. cbv zeta. rewrite run_logger.
  match goal with |- context [bind (daily_tushare _ _ ?a ?b) _ ?s0] =>
    pose proof (daily_tushare_calls w c a b s0) as Hc;
    unfold bind; destruct (daily_tushare w c a b s0) as [[[out |] | e] s1]
  end; simpl in Hc |- *.
  - rewrite Hc. unfold tushare_requests. rewrite filter_app.
    destruct (tushare_api s); reflexivity.
  - match goal with |- context [daily_after_tushare ?w ?c ?a ?b ?a' ?b' ?j ?s] =>
      rewrite (keeps_daily_after_tushare w c a b a' b' j s)
    end.
    rewrite Hc. unfold tushare_requests. rewrite filter_app.
    destruct (tushare_api s); reflexivity.
  - rewrite Hc. unfold tushare_requests. rewrite filter_app.
    destruct (tushare_api s); reflexivity.
Qed.

(** X18: without a token TuShare is never contacted: after [__init__] with
    no token or the empty token no call has been made, no API object is in
    place, and a following [get_daily_data] sends no request to TuShare. *)
Theorem no_token_no_tushare_request token s stock_code start_date end_date adjust :
  token = None \/ token = Some "" ->
  let s1 := (__init__ w token s).2 in
  calls s1 = calls s /\
  tushare_api s1 = false /\
  tushare_requests
    (calls (get_daily_data w stock_code start_date end_date adjust s1).2)
  = tushare_requests (calls s).
Proof.
  intros Ht s1.
  assert (calls s1 = calls s /\ tushare_api s1 = false) as [Hc Ha]
    by (destruct Ht; subst token; split; reflexivity).
  split; [exact Hc |]. split; [exact Ha |].
  rewrite tushare_requests_of_run, Ha, Hc, app_nil_r. reflexivity.
Qed.

(** X19: the Baostock block of [get_financial_data] wins whenever its
    three queries are answered with error code 0 and give frames, whether or
    not the frames have rows: the dict of the three frames is returned under
    the name Baostock after the login (if one was needed) and the three
    queries, and AkShare is not called. *)
Theorem financial_baostock_success
    s stock_code year quarter bs_code rp rb rc fp fb fc :
  let h := (calls s ++ login_calls s)%list in
  let qp := bs_query_profit_data bs_code year quarter in
  let qb := bs_query_balance_data bs_code year quarter in
  let qc := bs_query_cash_flow_data bs_code year quarter in
  session_opens w s (calls s) ->
  import_module w h "baostock" = Ok tt ->
  _convert_to_baostock_code stock_code = Ok bs_code ->
  w_bs_query_profit w h bs_code year quarter = Ok rp ->
  w_bs_query_balance w (h ++ [qp])%list bs_code year quarter = Ok rb ->
  w_bs_query_cash_flow w (h ++ [qp; qb])%list bs_code year quarter = Ok rc ->
  error_code rp = "0" -> error_code rb = "0" -> error_code rc = "0" ->
  pd_DataFrame (data rp) (fields rp) = Ok fp ->
  pd_DataFrame (data rb) (fields rb) = Ok fb ->
  pd_DataFrame (data rc) (fields rc) = Ok fc ->
  exists s',
    get_financial_data w stock_code year quarter s
    = (Ok (Some (<["cashflow" := fc]> (<["balance" := fb]>
                   (<["profit" := fp]> ∅))), "Baostock"), s') /\
    calls s' = (h ++ [qp; qb; qc])%list.
Proof.
  intros h qp qb qc Hs Hi Hc Hp Hb Hcf Ep Eb Ec Fp Fb Fc.
  unfold get_financial_data. rewrite run_logger.
  match goal with |- context [bind (financial_baostock _ _ _ _) _ ?s0] =>
    destruct (login_baostock_opens w s0 Hs) as (s1 & E1 & Hc1 & _ & _);
    set (st0 := s0) in *
  end.
  unfold financial_baostock. unfold bind at 1. unfold bind at 1.
  rewrite E1. simpl in Hc1. change (login_calls st0) with (login_calls s) in Hc1.
  fold h in Hc1.
  unfold bind, try_except, logger, import, lift, vendor, store_statement. simpl.
  rewrite Hc1, Hi, Hc. simpl. rewrite Hp. simpl. fold qp. rewrite Hb. simpl.
  fold qb. rewrite <- app_assoc. simpl. fold qp qb. rewrite Hcf. simpl.
  rewrite Ep, Eb, Ec. simpl. rewrite !read_rows_all. simpl.
  rewrite Fp, Fb, Fc. simpl.
  rewrite bool_decide_eq_false_2 by apply insert_non_empty. simpl.
  eexists. split; [reflexivity |]. simpl. rewrite <- !app_assoc. reflexivity.
Qed.

End Chains.

Lemma no_token_no_tushare_request_witness :
  let s1 := (__init__ Samples.tushare_serves (Some "") blank).2 in
  calls s1 = calls blank /\
  tushare_api s1 = false /\
  tushare_requests
    (calls (get_daily_data Samples.tushare_serves "600519" "20240101"
              "20240105" "qfq" s1).2)
  = tushare_requests (calls blank).
Proof.
  apply (no_token_no_tushare_request Samples.tushare_serves (Some "") blank
           "600519" "20240101" "20240105" "qfq").
  right. reflexivity.
Defined.

Lemma financial_baostock_success_witness :
  exists s',
    get_financial_data MoreSamples.no_statement_rows "600519" 2024 3 blank
    = (Ok (Some (<["cashflow" := MoreSamples.empty_statement]>
                   (<["balance" := MoreSamples.empty_statement]>
                      (<["profit" := MoreSamples.empty_statement]> ∅))),
           "Baostock"), s') /\
    calls s'
    = [bs_login; bs_query_profit_data "sh.600519" 2024 3;
       bs_query_balance_data "sh.600519" 2024 3;
       bs_query_cash_flow_data "sh.600519" 2024 3].
Proof.
  apply (financial_baostock_success MoreSamples.no_statement_rows blank
           "600519" 2024 3 "sh.600519" Samples.no_rows Samples.no_rows
           Samples.no_rows MoreSamples.empty_statement
           MoreSamples.empty_statement MoreSamples.empty_statement);
    try reflexivity.
  right. split; [reflexivity | exists "success"; reflexivity].
Defined.

Lemma akshare_called_only_as_last_resort_witness :
  akshare_calls
    (calls (get_daily_data Samples.tushare_empty "600519" "2024-01-01"
              "2024-01-05" "qfq" Samples.configured).2)
  = akshare_calls (calls Samples.configured).
Proof.
  destruct (akshare_called_only_as_last_resort Samples.tushare_empty
              Samples.configured) as [Hd _].
  apply (Hd "600519" "2024-01-01" "2024-01-05" "qfq" Samples.bs_frame3
           "Baostock").
  - vm_compute. reflexivity.
  - discriminate.
Defined.

Lemma active_session_is_reused_witness :
  (forall stock_code start_date end_date adjust,
      let s' := (get_daily_data MoreSamples.no_statement_rows stock_code
                   start_date end_date adjust MoreSamples.in_session).2 in
      baostock_logged_in s' = true /\
      login_count (calls s') = login_count (calls MoreSamples.in_session)) /\
  (forall stock_code year quarter,
      let s' := (get_financial_data MoreSamples.no_statement_rows stock_code
                   year quarter MoreSamples.in_session).2 in
      baostock_logged_in s' = true /\
      login_count (calls s') = login_count (calls MoreSamples.in_session)).
Proof.
  apply (active_session_is_reused MoreSamples.no_statement_rows
           MoreSamples.in_session).
  reflexivity.
Defined.

Lemma no_baostock_query_without_session_witness :
  bs_queries
    (calls (get_daily_data Samples.no_session "600519" "20240101" "20240105"
              "qfq" blank).2)
  = bs_queries (calls blank).
Proof.
  destruct (no_baostock_query_without_session Samples.no_session blank)
    as [Hd _].
  apply (Hd "600519" "20240101" "20240105" "qfq"). reflexivity.
Defined.

Section FinancialFallback.

Variable w : world.

(** X20: the Baostock block of [get_financial_data] falls through only
    when none of its three queries reports error code 0: then the three Sina
    reports are fetched in the order balance, profit, cash flow under the
    one Sina code, and their dict is returned under the name AkShare. *)
Theorem financial_falls_back_to_akshare
    s stock_code year quarter bs_code rp rb rc balance profit cashflow :
  let h := (calls s ++ login_calls s)%list in
  let qp := bs_query_profit_data bs_code year quarter in
  let qb := bs_query_balance_data bs_code year quarter in
  let qc := bs_query_cash_flow_data bs_code year quarter in
  let sina := sina_code stock_code in
  let a1 := ak_stock_financial_report_sina sina "资产负债表" in
  let a2 := ak_stock_financial_report_sina sina "利润表" in
  let a3 := ak_stock_financial_report_sina sina "现金流量表" in
  let h' := (h ++ [qp; qb; qc])%list in
  session_opens w s (calls s) ->
  import_module w h "baostock" = Ok tt ->
  _convert_to_baostock_code stock_code = Ok bs_code ->
  w_bs_query_profit w h bs_code year quarter = Ok rp ->
  w_bs_query_balance w (h ++ [qp])%list bs_code year quarter = Ok rb ->
  w_bs_query_cash_flow w (h ++ [qp; qb])%list bs_code year quarter = Ok rc ->
  error_code rp <> "0" -> error_code rb <> "0" -> error_code rc <> "0" ->
  import_module w h' "akshare" = Ok tt ->
  w_ak_sina w h' sina "资产负债表" = Ok balance ->
  w_ak_sina w (h' ++ [a1])%list sina "利润表" = Ok profit ->
  w_ak_sina w (h' ++ [a1; a2])%list sina "现金流量表" = Ok cashflow ->
  exists s',
    get_financial_data w stock_code year quarter s
    = (Ok (Some (<["cashflow" := cashflow]> (<["profit" := profit]>
                   (<["balance" := balance]> ∅))), "AkShare"), s') /\
    calls s' = (h' ++ [a1; a2; a3])%list.
Proof.
  intros h qp qb qc sina a1 a2 a3 h' Hs Hi Hc Hp Hb Hcf Ep Eb Ec Hia H1 H2 H3.
  apply String.eqb_neq in Ep, Eb, Ec.
  unfold get_financial_data. rewrite run_logger.
  match goal with |- context [bind (financial_baostock _ _ _ _) _ ?s0] =>
    destruct (login_baostock_opens w s0 Hs) as (s1 & E1 & Hc1 & _ & _);
    set (st0 := s0) in *
  end.
  unfold financial_baostock. unfold bind at 1. unfold bind at 1.
  rewrite E1. simpl in Hc1. change (login_calls st0) with (login_calls s) in Hc1.
  fold h in Hc1.
  unfold financial_akshare.
  unfold bind, try_except, logger, import, lift, vendor, store_statement. simpl.
  rewrite Hc1, Hi, Hc. simpl. rewrite Hp. simpl. fold qp. rewrite Hb. simpl.
  fold qb. rewrite <- app_assoc. simpl. fold qp qb. rewrite Hcf. simpl.
  rewrite Ep, Eb, Ec. simpl.
  rewrite <- !app_assoc. simpl. fold qp qb qc h' sina.
  rewrite bool_decide_eq_true_2 by reflexivity. simpl.
  rewrite Hia, H1. simpl. fold a1. rewrite H2. simpl. fold a2.
  rewrite <- app_assoc. simpl. fold a1 a2. rewrite H3. simpl.
  eexists. split; [reflexivity |]. simpl. rewrite <- !app_assoc. reflexivity.
Qed.

End FinancialFallback.

Lemma financial_falls_back_to_akshare_witness :
  exists s',
    get_financial_data MoreSamples.statements_refused "600519" 2024 3 blank
    = (Ok (Some (<["cashflow" := MoreSamples.sina_report]>
                   (<["profit" := MoreSamples.sina_report]>
                      (<["balance" := MoreSamples.sina_report]> ∅))),
           "AkShare"), s') /\
    calls s'
    = [bs_login; bs_query_profit_data "sh.600519" 2024 3;
       bs_query_balance_data "sh.600519" 2024 3;
       bs_query_cash_flow_data "sh.600519" 2024 3;
       ak_stock_financial_report_sina "sh600519" "资产负债表";
       ak_stock_financial_report_sina "sh600519" "利润表";
       ak_stock_financial_report_sina "sh600519" "现金流量表"].
Proof.
  apply (financial_falls_back_to_akshare MoreSamples.statements_refused blank
           "600519" 2024 3 "sh.600519" Samples.rs_error Samples.rs_error
           Samples.rs_error MoreSamples.sina_report MoreSamples.sina_report
           MoreSamples.sina_report);
    try reflexivity; try discriminate.
  right. split; [reflexivity | exists "success"; reflexivity].
Defined.

Lemma financial_success_keys_witness :
  ({["profit" := Samples.profit_frame]} : gmap string DataFrame) <> ∅ /\
  dom ({["profit" := Samples.profit_frame]} : gmap string DataFrame)
  ⊆ statement_keys /\
  ("Baostock" = "AkShare" ->
   dom ({["profit" := Samples.profit_frame]} : gmap string DataFrame)
   = statement_keys).
Proof.
  apply (financial_success_keys Samples.profit_only "600519" 2024 3 blank
           {["profit" := Samples.profit_frame]} "Baostock"
           (get_financial_data Samples.profit_only "600519" 2024 3 blank).2).
  vm_compute. reflexivity.
Defined.

(** ** When every provider fails *)

#[local] Instance extended_by_refl (P : call -> bool) : Reflexive (extended_by P).
Proof. intros s. exists []. split; [rewrite app_nil_r; reflexivity | constructor]. Qed.

#[local] Instance extended_by_trans (P : call -> bool) : Transitive (extended_by P).
Proof.
  intros a b c (p1 & E1 & F1) (p2 & E2 & F2). exists (p1 ++ p2)%list. split.
  - rewrite E2, E1, <- app_assoc. reflexivity.
  - apply Forall_app. split; assumption.
Qed.

Section AllFail.

Variable w : world.

Lemma ensures_vendor {A} c (answer : list call -> outcome A) :
  ensures (vendor c answer) (fun a => exists h, answer h = Ok a).
Proof.
  intros s a s' E. unfold vendor in E. exists (calls s). congruence.
Qed.

Lemma ensures_lift {A} (o : outcome A) : ensures (lift o) (fun a => o = Ok a).
Proof. intros s a s' E. unfold lift in E. inversion E. reflexivity. Qed.

Lemma handler_none {D} (msg : string) (e : exn) :
  returns (logger WARNING (msg +:+ e) ;;; ret (@None D)) (fun r => r = None).
Proof.
  apply returns_bind with (Q := fun _ => True).
  - apply returns_logger. trivial.
  - intros. apply returns_ret. reflexivity.
Qed.

(** Each block of the daily chain falls through on a failing answer. *)
Lemma tushare_none c sd ed :
  (forall h, daily_answer_fails
               (w_ts_daily w h (_convert_to_tushare_code c) sd ed TS_FIELDS)) ->
  returns (daily_tushare w c sd ed) (fun r => r = None).
Proof.
  intros HT. unfold daily_tushare.
  apply returns_bind with (Q := fun _ => True);
    [apply returns_get_state; trivial |].
  intros s _. destruct (tushare_api s); [| apply returns_ret; reflexivity].
  apply returns_try_except; [| intros; apply handler_none].
  apply ensures_bind. intros _.
  eapply ensures_bind_with; [apply ensures_vendor |].
  intros o [h Hh]. cbv beta in Hh. specialize (HT h). rewrite Hh in HT.
  destruct o as [df |]; [| apply ensures_ret; reflexivity].
  simpl in HT. rewrite HT. simpl. apply ensures_ret. reflexivity.
Qed.

Lemma baostock_none c sd ed adj :
  (forall h bs_code,
      history_answer_fails
        (w_bs_query_history w h bs_code BS_FIELDS sd ed "d" (adjustflag_of adj))) ->
  returns (daily_baostock w c sd ed adj) (fun r => r = None).
Proof.
  intros HB. unfold daily_baostock.
  eapply returns_bind; [apply login_baostock_returns |].
  intros logged _. destruct logged; [| apply returns_ret; reflexivity].
  apply returns_try_except; [| intros; apply handler_none].
  apply ensures_bind. intros _. apply ensures_bind. intros _.
  apply ensures_bind. intros bs_code.
  eapply ensures_bind_with; [apply ensures_vendor |].
  intros rs [h Hh]. cbv beta in Hh. specialize (HB h bs_code).
  rewrite Hh in HB. simpl in HB.
  destruct (String.eqb (error_code rs) "0") eqn:E0;
    [| apply ensures_ret; reflexivity].
  apply String.eqb_eq in E0. destruct HB as [HB | HB]; [contradiction |].
  rewrite E0, read_rows_all. simpl app.
  eapply ensures_bind_with; [apply ensures_lift |].
  intros df Hdf. rewrite Hdf in HB. rewrite HB. simpl.
  apply ensures_ret. reflexivity.
Qed.

Lemma akshare_none c sd ed adj :
  (forall h, daily_answer_fails (w_ak_hist w h c "daily" sd ed adj)) ->
  returns (daily_akshare w c sd ed adj) (fun r => r = None).
Proof.
  intros HA. unfold daily_akshare.
  apply returns_try_except; [| intros; apply handler_none].
  apply ensures_bind. intros _. apply ensures_bind. intros _.
  eapply ensures_bind_with; [apply ensures_vendor |].
  intros o [h Hh]. cbv beta in Hh. specialize (HA h). rewrite Hh in HA.
  destruct o as [df |]; [| apply ensures_ret; reflexivity].
  simpl in HA. rewrite HA. simpl. apply ensures_ret. reflexivity.
Qed.

(** The financial blocks. *)
Lemma store_refused key rs (result : gmap string DataFrame) :
  error_code rs <> "0" ->
  ensures (store_statement key rs result) (fun r => r = result).
Proof.
  intros H. apply String.eqb_neq in H. unfold store_statement. rewrite H.
  apply ensures_ret. reflexivity.
Qed.

Lemma financial_baostock_none c y q :
  (forall h bs_code,
      statement_answer_fails (w_bs_query_profit w h bs_code y q) /\
      statement_answer_fails (w_bs_query_balance w h bs_code y q) /\
      statement_answer_fails (w_bs_query_cash_flow w h bs_code y q)) ->
  returns (financial_baostock w c y q) (fun r => r = None).
Proof.
  intros HB. unfold financial_baostock.
  eapply returns_bind; [apply login_baostock_returns |].
  intros logged _. destruct logged; [| apply returns_ret; reflexivity].
  apply returns_try_except; [| intros; apply handler_none].
  apply ensures_bind. intros _. apply ensures_bind. intros _.
  apply ensures_bind. intros bs_code.
  eapply ensures_bind_with; [apply ensures_vendor |].
  intros rp [h1 H1]. cbv beta in H1.
  eapply ensures_bind_with; [apply ensures_vendor |].
  intros rb [h2 H2]. cbv beta in H2.
  eapply ensures_bind_with; [apply ensures_vendor |].
  intros rc [h3 H3]. cbv beta in H3.
  destruct (HB h1 bs_code) as (Hp & _ & _). rewrite H1 in Hp.
  destruct (HB h2 bs_code) as (_ & Hb & _). rewrite H2 in Hb.
  destruct (HB h3 bs_code) as (_ & _ & Hc). rewrite H3 in Hc.
  simpl in Hp, Hb, Hc. cbv zeta.
  eapply ensures_bind_with; [apply (store_refused _ _ _ Hp) |]. intros r1 ->.
  eapply ensures_bind_with; [apply (store_refused _ _ _ Hb) |]. intros r2 ->.
  eapply ensures_bind_with; [apply (store_refused _ _ _ Hc) |]. intros r3 ->.
  rewrite bool_decide_eq_true_2 by reflexivity. simpl.
  apply ensures_ret. reflexivity.
Qed.

Lemma financial_akshare_none c :
  (forall h symbol, raises (w_ak_sina w h (sina_code c) symbol)) ->
  returns (financial_akshare w c) (fun r => r = None).
Proof.
  intros HA. unfold financial_akshare.
  apply returns_try_except; [| intros; apply handler_none].
  apply ensures_bind. intros _. apply ensures_bind. intros _. cbv zeta.
  eapply ensures_bind_with; [apply ensures_vendor |].
  intros b [h Hh]. cbv beta in Hh. specialize (HA h "资产负债表").
  rewrite Hh in HA. destruct HA.
Qed.

(** The calls of the Baostock blocks are Baostock calls. *)
Lemma ext_logger l msg : keeps (extended_by is_baostock_call) (logger l msg).
Proof.
  intros s. exists []. split; [simpl; rewrite app_nil_r; reflexivity | constructor].
Qed.

Lemma ext_get_state : keeps (extended_by is_baostock_call) get_state.
Proof.
  intros s. exists []. split; [simpl; rewrite app_nil_r; reflexivity | constructor].
Qed.

Lemma ext_import name : keeps (extended_by is_baostock_call) (import w name).
Proof.
  intros s. exists []. split; [simpl; rewrite app_nil_r; reflexivity | constructor].
Qed.

Lemma ext_set_flag b :
  keeps (extended_by is_baostock_call) (set_baostock_logged_in b).
Proof.
  intros s. exists []. split; [simpl; rewrite app_nil_r; reflexivity | constructor].
Qed.

Lemma ext_vendor {A} c (answer : list call -> outcome A) :
  is_baostock_call c = true ->
  keeps (extended_by is_baostock_call) (vendor c answer).
Proof.
  intros H s. exists [c]. split; [reflexivity |]. constructor; [exact H | constructor].
Qed.

Ltac ext_step :=
  first
    [ keeps_struct
    | apply ext_logger | apply ext_get_state | apply ext_import
    | apply ext_set_flag | apply ext_vendor; reflexivity ].

Lemma ext_login : keeps (extended_by is_baostock_call) (_login_baostock w).
Proof. unfold _login_baostock. repeat ext_step. Qed.

Lemma ext_daily_baostock c sd ed adj :
  keeps (extended_by is_baostock_call) (daily_baostock w c sd ed adj).
Proof.
  unfold daily_baostock.
  apply keeps_bind; [tc_solve | apply ext_login | intros].
  repeat ext_step.
Qed.

Lemma ext_financial_baostock c y q :
  keeps (extended_by is_baostock_call) (financial_baostock w c y q).
Proof.
  unfold financial_baostock.
  apply keeps_bind; [tc_solve | apply ext_login | intros].
  repeat ext_step.
Qed.

(** The AkShare blocks make their first call once the import returns. *)
Lemma daily_akshare_calls c sd ed adj s :
  import_module w (calls s) "akshare" = Ok tt ->
  calls (daily_akshare w c sd ed adj s).2
  = (calls s ++ [ak_stock_zh_a_hist c "daily" sd ed adj])%list.
Proof.
  intros Hi. unfold daily_akshare, try_except, bind, logger, import, vendor.
  simpl. rewrite Hi. simpl.
  destruct (w_ak_hist w (calls s) c "daily" sd ed adj) as [[df |] | e]; simpl;
    try reflexivity.
  destruct (df_empty df); reflexivity.
Qed.

Lemma financial_akshare_calls c s :
  import_module w (calls s) "akshare" = Ok tt ->
  raises (w_ak_sina w (calls s) (sina_code c) "资产负债表") ->
  calls (financial_akshare w c s).2
  = (calls s ++ [ak_stock_financial_report_sina (sina_code c) "资产负债表"])%list.
Proof.
  intros Hi Hr. unfold financial_akshare, try_except, bind, logger, import, vendor.
  simpl. rewrite Hi. simpl.
  destruct (w_ak_sina w (calls s) (sina_code c) "资产负债表"); [destruct Hr |].
  reflexivity.
Qed.

Lemma daily_all_fail c sd ed adj s :
  daily_providers_fail w c sd ed adj ->
  exists s',
    get_daily_data w c sd ed adj s = (Ok (None, ALL_FAILED), s') /\
    (libraries_installed w ->
     exists bs_part,
       Forall (fun x => is_baostock_call x = true) bs_part /\
       calls s'
       = (calls s
          ++ tushare_calls s c (PyStr.remove PyStr.hyphen sd)
               (PyStr.remove PyStr.hyphen ed)
          ++ bs_part
          ++ [ak_stock_zh_a_hist c "daily" (PyStr.remove PyStr.hyphen sd)
                (PyStr.remove PyStr.hyphen ed) adj])%list).
Proof.
  intros (HT & HB & HA). unfold get_daily_data. rewrite run_logger.
  match goal with |- context [bind (daily_tushare _ _ ?a ?b) _ ?s0] =>
    destruct (tushare_none c a b HT s0) as (r1 & s1 & E1 & ->);
    pose proof (daily_tushare_calls w c a b s0) as C1
  end.
  rewrite E1 in C1. simpl in C1. rewrite (run_bind _ _ _ _ _ E1).
  match goal with |- context [bind (daily_baostock _ _ ?a ?b ?j) _ s1] =>
    destruct (baostock_none c a b j HB s1) as (r2 & s2 & E2 & ->);
    pose proof (ext_daily_baostock c a b j s1) as C2
  end.
  rewrite E2 in C2. simpl in C2. destruct C2 as (part & C2 & HF).
  rewrite (run_bind _ _ _ _ _ E2).
  match goal with |- context [bind (daily_akshare _ _ ?a ?b ?j) _ s2] =>
    destruct (akshare_none c a b j HA s2) as (r3 & s3 & E3 & ->);
    pose proof (daily_akshare_calls c a b j s2) as C3
  end.
  rewrite E3 in C3. simpl in C3. rewrite (run_bind _ _ _ _ _ E3).
  rewrite run_logger. eexists. split; [reflexivity |].
  intros Hlib. exists part. split; [exact HF |].
  simpl. rewrite (C3 (Hlib _ _)), C2, C1. unfold tushare_calls.
  rewrite <- !app_assoc. reflexivity.
Qed.

Lemma financial_all_fail c y q s :
  financial_providers_fail w c y q ->
  exists s',
    get_financial_data w c y q s = (Ok (None, ALL_FAILED), s') /\
    (libraries_installed w ->
     exists bs_part,
       Forall (fun x => is_baostock_call x = true) bs_part /\
       calls s'
       = (calls s ++ bs_part
          ++ [ak_stock_financial_report_sina (sina_code c) "资产负债表"])%list).
Proof.
  intros (HB & HA). unfold get_financial_data. rewrite run_logger.
  match goal with |- context [bind (financial_baostock _ _ _ _) _ ?s0] =>
    destruct (financial_baostock_none c y q HB s0) as (r1 & s1 & E1 & ->);
    pose proof (ext_financial_baostock c y q s0) as C1
  end.
  rewrite E1 in C1. simpl in C1. destruct C1 as (part & C1 & HF).
  rewrite (run_bind _ _ _ _ _ E1).
  destruct (financial_akshare_none c HA s1) as (r2 & s2 & E2 & ->).
  pose proof (financial_akshare_calls c s1) as C2.
  rewrite E2 in C2. simpl in C2. rewrite (run_bind _ _ _ _ _ E2).
  rewrite run_logger. eexists. split; [reflexivity |].
  intros Hlib. exists part. split; [exact HF |].
  simpl. rewrite (C2 (Hlib _ _) (HA _ _)), C1.
  rewrite <- !app_assoc. reflexivity.
Qed.

End AllFail.

(** C2, amended: when every provider fails for a request (each vendor's
    answer to it raises or gives no data), [get_daily_data] and
    [get_financial_data] return None with the one fixed message and nothing
    else; and they have tried the providers in priority order first: with
    the libraries installed, the calls of the run are the TuShare request
    (when there is an API object), then Baostock calls, then the AkShare
    request. *)
Theorem failing_providers_give_fixed_message
    (w : world) (s : state) stock_code start_date end_date adjust year quarter :
  daily_providers_fail w stock_code start_date end_date adjust ->
  financial_providers_fail w stock_code year quarter ->
  (exists s',
      get_daily_data w stock_code start_date end_date adjust s
      = (Ok (None, ALL_FAILED), s') /\
      (libraries_installed w ->
       exists bs_part,
         Forall (fun c => is_baostock_call c = true) bs_part /\
         calls s'
         = (calls s
            ++ tushare_calls s stock_code (PyStr.remove PyStr.hyphen start_date)
                 (PyStr.remove PyStr.hyphen end_date)
            ++ bs_part
            ++ [ak_stock_zh_a_hist stock_code "daily"
                  (PyStr.remove PyStr.hyphen start_date)
                  (PyStr.remove PyStr.hyphen end_date) adjust])%list)) /\
  (exists s',
      get_financial_data w stock_code year quarter s
      = (Ok (None, ALL_FAILED), s') /\
      (libraries_installed w ->
       exists bs_part,
         Forall (fun c => is_baostock_call c = true) bs_part /\
         calls s'
         = (calls s ++ bs_part
            ++ [ak_stock_financial_report_sina (sina_code stock_code)
                  "资产负债表"])%list)).
Proof.
  intros Hd Hf. split.
  - apply daily_all_fail, Hd.
  - apply financial_all_fail, Hf.
Qed.

Lemma failing_providers_give_fixed_message_witness :
  (exists s',
      get_daily_data (Samples.down "akshare: banned") "600519" "2024-01-01"
        "2024-01-05" "qfq" Samples.configured
      = (Ok (None, ALL_FAILED), s') /\
      (libraries_installed (Samples.down "akshare: banned") ->
       exists bs_part,
         Forall (fun c => is_baostock_call c = true) bs_part /\
         calls s'
         = (calls Samples.configured
            ++ tushare_calls Samples.configured "600519" "20240101" "20240105"
            ++ bs_part
            ++ [ak_stock_zh_a_hist "600519" "daily" "20240101" "20240105"
                  "qfq"])%list)) /\
  (exists s',
      get_financial_data (Samples.down "akshare: banned") "600519" 2024 3
        Samples.configured
      = (Ok (None, ALL_FAILED), s') /\
      (libraries_installed (Samples.down "akshare: banned") ->
       exists bs_part,
         Forall (fun c => is_baostock_call c = true) bs_part /\
         calls s'
         = (calls Samples.configured ++ bs_part
            ++ [ak_stock_financial_report_sina "sh600519" "资产负债表"])%list)).
Proof.
  apply (failing_providers_give_fixed_message (Samples.down "akshare: banned")
           Samples.configured "600519" "2024-01-01" "2024-01-05" "qfq" 2024 3).
  - repeat split; intros; exact I.
  - repeat split; intros; exact I.
Defined.

(** ** Zero rows *)

(** C5 does not hold as stated: in [get_financial_data] a Baostock answer
    with zero rows is not a failure.  With the three statement queries
    answered by error code 0 and no rows, the dict of three frames without
    rows is returned under the name Baostock. *)
Lemma financial_zero_rows_returned_as_success : ~ zero_rows_are_failures.
Proof.
  intros [_ H].
  pose (d := (<["cashflow" := MoreSamples.empty_statement]>
                (<["balance" := MoreSamples.empty_statement]>
                   (<["profit" := MoreSamples.empty_statement]> ∅)))
             : gmap string DataFrame).
  assert (get_financial_data MoreSamples.no_statement_rows "600519" 2024 3 blank
          = (Ok (Some d, "Baostock"),
             (get_financial_data MoreSamples.no_statement_rows "600519" 2024 3
                blank).2)) as E
    by (vm_compute; reflexivity).
  assert (d !! "profit" = Some MoreSamples.empty_statement) as L
    by (vm_compute; reflexivity).
  exact (H _ _ _ _ _ _ _ _ E _ _ L eq_refl).
Qed.

Section ZeroRows.

Variable w : world.

Local Arguments _convert_to_tushare_code : simpl never.
Local Arguments _convert_to_baostock_code : simpl never.

(** C5, amended: in [get_daily_data] an answer that is an empty frame is a
    failure of that provider and the next one in priority order is tried:
    when TuShare yields nothing (no API object, or an empty frame) and
    Baostock answers the query, a Baostock frame with rows is returned under
    the name Baostock, and a Baostock frame without rows makes the method go
    on to AkShare, whose rows are returned under the name AkShare.  (In
    [get_financial_data] the frames are not tested for rows.) *)
Theorem zero_rows_fall_back_in_daily_chain
    s stock_code start_date end_date adjust bs_code rs df_b df_a :
  let sd := PyStr.remove PyStr.hyphen start_date in
  let ed := PyStr.remove PyStr.hyphen end_date in
  let h1 := (calls s ++ tushare_calls s stock_code sd ed)%list in
  let query :=
    bs_query_history_k_data_plus bs_code BS_FIELDS (hyphenate sd) (hyphenate ed)
      "d" (adjustflag_of adjust) in
  let h2 := (h1 ++ login_calls s ++ [query])%list in
  let ak := ak_stock_zh_a_hist stock_code "daily" sd ed adjust in
  tushare_yields_nothing w s stock_code sd ed ->
  session_opens w s h1 ->
  import_module w (h1 ++ login_calls s)%list "baostock" = Ok tt ->
  _convert_to_baostock_code stock_code = Ok bs_code ->
  w_bs_query_history w (h1 ++ login_calls s)%list bs_code BS_FIELDS
    (hyphenate sd) (hyphenate ed) "d" (adjustflag_of adjust) = Ok rs ->
  error_code rs = "0" ->
  pd_DataFrame (data rs) (fields rs) = Ok df_b ->
  (df_empty df_b = true ->
   import_module w h2 "akshare" = Ok tt /\
   w_ak_hist w h2 stock_code "daily" sd ed adjust = Ok (Some df_a) /\
   df_empty df_a = false) ->
  exists s',
    get_daily_data w stock_code start_date end_date adjust s
    = (Ok (if df_empty df_b then (Some df_a, "AkShare")
           else (Some df_b, "Baostock")), s') /\
    calls s' = (h2 ++ if df_empty df_b then [ak] else [])%list.
Proof.
  intros sd ed h1 query h2 ak Hts Hs Hi Hc Hq Hcode Hd Hak.
  unfold get_daily_data. rewrite run_logger. fold sd ed.
  match goal with |- context [bind (daily_tushare _ _ _ _) _ ?s0] =>
    assert (exists s1,
               daily_tushare w stock_code sd ed s0 = (Ok None, s1) /\
               calls s1 = h1 /\
               baostock_logged_in s1 = baostock_logged_in s)
      as (s1 & E1 & Hc1 & Hb1)
  end.
  { unfold h1, tushare_calls. destruct (tushare_api s) eqn:Et.
    - destruct (Hts Et) as (df0 & Ha & He0).
      match goal with |- context [daily_tushare _ _ _ _ ?s0] =>
        destruct (daily_tushare_answer w s0 stock_code sd ed df0 eq_refl Ha)
          as (s1 & E1 & Hc1 & _ & Hb1)
      end.
      rewrite He0 in E1. exists s1. auto.
    - eexists. split; [apply daily_tushare_unconfigured; reflexivity |].
      simpl. rewrite app_nil_r. auto. }
  rewrite (run_bind _ _ _ _ _ E1).
  assert (login_calls s1 = login_calls s) as Hl
    by (unfold login_calls; rewrite Hb1; reflexivity).
  assert (session_opens w s1 (calls s1)) as Hs1.
  { rewrite Hc1. destruct Hs as [Hs | Hs]; [left | right; exact Hs].
    rewrite Hb1. exact Hs. }
  destruct (daily_baostock_answer w s1 stock_code (hyphenate sd) (hyphenate ed)
              adjust bs_code rs df_b Hs1) as (s2 & E2 & Hc2);
    try assumption; try (rewrite Hc1, Hl; assumption).
  rewrite (run_bind _ _ _ _ _ E2).
  rewrite Hc1, Hl in Hc2. fold query h2 in Hc2.
  destruct (df_empty df_b).
  - destruct (Hak eq_refl) as (Hia & Ha & Hea).
    destruct (daily_akshare_answer w s2 stock_code sd ed adjust df_a)
      as (s3 & E3 & Hc3); try (rewrite Hc2; assumption).
    rewrite Hea in E3. rewrite (run_bind _ _ _ _ _ E3).
    exists s3. split; [reflexivity |]. rewrite Hc3, Hc2. reflexivity.
  - exists s2. split; [reflexivity |]. rewrite Hc2, app_nil_r. reflexivity.
Qed.

End ZeroRows.

Lemma zero_rows_fall_back_in_daily_chain_witness :
  (exists s',
      get_daily_data Samples.tushare_empty "600519" "2024-01-01" "2024-01-05"
        "qfq" Samples.configured
      = (Ok (Some Samples.bs_frame3, "Baostock"), s') /\
      calls s'
      = [ts_set_token "token"; ts_pro_api;
         ts_daily "600519.SH" "20240101" "20240105" TS_FIELDS;
         bs_login;
         bs_query_history_k_data_plus "sh.600519" BS_FIELDS "2024-01-01"
           "2024-01-05" "d" "2"]) /\
  (exists s',
      get_daily_data
        (Samples.serving (Ok (Some Samples.empty_frame)) (Ok Samples.no_rows)
           (Ok (Some Samples.ak3)))
        "600519" "2024-01-01" "2024-01-05" "qfq" blank
      = (Ok (Some Samples.ak3, "AkShare"), s') /\
      calls s'
      = [bs_login;
         bs_query_history_k_data_plus "sh.600519" BS_FIELDS "2024-01-01"
           "2024-01-05" "d" "2";
         ak_stock_zh_a_hist "600519" "daily" "20240101" "20240105" "qfq"]).
Proof.
  split.
  - apply (zero_rows_fall_back_in_daily_chain Samples.tushare_empty
             Samples.configured "600519" "2024-01-01" "2024-01-05" "qfq"
             "sh.600519" Samples.rs3 Samples.bs_frame3 Samples.ak3);
      try reflexivity.
    + intros _. exists Samples.empty_frame. split; reflexivity.
    + right. split; [reflexivity | exists "success"; reflexivity].
    + intros H. discriminate H.
  - apply (zero_rows_fall_back_in_daily_chain
             (Samples.serving (Ok (Some Samples.empty_frame))
                (Ok Samples.no_rows) (Ok (Some Samples.ak3)))
             blank "600519" "2024-01-01" "2024-01-05" "qfq"
             "sh.600519" Samples.no_rows
             (mkDataFrame ["date"; "code"; "close"] []) Samples.ak3);
      try reflexivity.
    + intros H. discriminate H.
    + right. split; [reflexivity | exists "success"; reflexivity].
    + intros _. repeat split.
Defined.
